(** * one_fusion: the semantic gateway endpoints and the status endpoint

  A shallow embedding of [api/endpoints/semantic.py] and
  [api/endpoints/status.py].  The two FastAPI handlers of the first file
  and the health check of the second are written in a small
  trace-and-exception monad: every call to a collaborator (LLM client,
  dispatcher, datastore, cache, logger, clock) leaves an event in the
  trace, and a Python [raise] is the error branch of the result. *)

From Stdlib Require Import ZArith NArith Ascii String List DecimalString.
From stdpp Require Import base option list strings gmap.

Local Open Scope Z_scope.

(** ** Python values, exceptions and string helpers *)

Module Py.

(** The values that travel as [Any] through the dictionaries of the
    gateway.  [PyOther cls rendering] is any other object (number, list,
    nested dict, model instance); the endpoints only ever pass it along or
    interpolate its [str()] into a string, so it is known by its class
    name and that rendering. *)
Inductive PyVal : Type :=
| PyNone
| PyBool (b : bool)
| PyStr (s : string)
| PyOther (cls : string) (rendering : string).

(** [str(v)], as an f-string placeholder [{v}] computes it. *)
Definition py_str (v : PyVal) : string :=
  match v with
  | PyNone => "None"
  | PyBool true => "True"
  | PyBool false => "False"
  | PyStr s => s
  | PyOther _ r => r
  end.

(** The part of Python's [Exception] hierarchy the handlers tell apart.
    [ValueError cls msg] is [ValueError] itself or a subclass named [cls]
    (what [except ValueError] catches); [HTTPException] is FastAPI's,
    which derives from [Exception] and not from [ValueError];
    [OtherException] is every other subclass of [Exception]. *)
Inductive PyExc : Type :=
| ValueError (cls : string) (msg : string)
| KeyError (key : string)
| HTTPException (status_code : Z) (detail : string)
| OtherException (cls : string) (msg : string).

(** [isinstance(e, ValueError)] *)
Definition is_ValueError (e : PyExc) : bool :=
  match e with
  | ValueError _ _ => true
  | _ => false
  end.

(** [str(n)] of an integer *)
Definition z_str (z : Z) : string := NilZero.string_of_int (Z.to_int z).

Definition backslash : ascii := ascii_of_N 92.
Definition double_quote : ascii := ascii_of_N 34.

Fixpoint contains (c : ascii) (s : string) : bool :=
  match s with
  | EmptyString => false
  | String c' r => Ascii.eqb c c' || contains c r
  end.

Definition hex_digit (n : N) : ascii :=
  if (n <? 10)%N then ascii_of_N (48 + n) else ascii_of_N (87 + n).

(** One character inside [repr] of a string quoted with [quote]: the
    backslash and the quote are escaped, tab, newline and return get their
    letter, other control characters [\xhh]; every other byte is kept. *)
Definition repr_char (quote c : ascii) : string :=
  let n := N_of_ascii c in
  if Ascii.eqb c backslash then String backslash (String backslash "")
  else if Ascii.eqb c quote then String backslash (String quote "")
  else if (n =? 9)%N then String backslash "t"
  else if (n =? 10)%N then String backslash "n"
  else if (n =? 13)%N then String backslash "r"
  else if ((n <? 32) || (n =? 127))%N then
    String backslash (String "x" (String (hex_digit (n / 16)) (String (hex_digit (n mod 16)) "")))
  else String c "".

Fixpoint repr_body (quote : ascii) (s : string) : string :=
  match s with
  | EmptyString => EmptyString
  | String c r => repr_char quote c +:+ repr_body quote r
  end.

(** [repr] of a string: between single quotes, or between double quotes
    when it holds a single quote and no double quote. *)
Definition py_repr_str (s : string) : string :=
  let quote := if contains "'" s && negb (contains double_quote s)
               then double_quote else "'"%char in
  String quote (repr_body quote s +:+ String quote "").

(** [str(e)]; a [KeyError] shows the [repr] of its key, starlette's
    [HTTPException] its status and detail. *)
Definition exc_str (e : PyExc) : string :=
  match e with
  | ValueError _ msg => msg
  | KeyError k => py_repr_str k
  | HTTPException c d => z_str c +:+ ": " +:+ d
  | OtherException _ msg => msg
  end.

(** fastapi.status *)
Definition HTTP_400_BAD_REQUEST : Z := 400.
Definition HTTP_403_FORBIDDEN : Z := 403.
Definition HTTP_500_INTERNAL_SERVER_ERROR : Z := 500.
Definition HTTP_503_SERVICE_UNAVAILABLE : Z := 503.

(** Truthiness of the optional fields the endpoints test with [if x:]. *)
Definition truthy_str (o : option string) : bool :=
  match o with
  | Some (String _ _) => true
  | _ => false
  end.

Definition truthy_list {A : Type} (o : option (list A)) : bool :=
  match o with
  | Some (_ :: _) => true
  | _ => false
  end.

(** [x or d] on an optional string *)
Definition str_or (o : option string) (d : string) : string :=
  if truthy_str o then default d o else d.

(** [str.upper] on ASCII letters *)
Definition upper_ascii (c : ascii) : ascii :=
  let n := N_of_ascii c in
  if ((97 <=? n) && (n <=? 122))%N then ascii_of_N (n - 32) else c.

Fixpoint upper (s : string) : string :=
  match s with
  | EmptyString => EmptyString
  | String c r => String (upper_ascii c) (upper r)
  end.

(** [sep.join(l)] *)
Fixpoint join (sep : string) (l : list string) : string :=
  match l with
  | [] => ""
  | [x] => x
  | x :: r => x +:+ sep +:+ join sep r
  end.

(** A [dict] of strings in insertion order; a key that is already there
    keeps its place when it is assigned again. *)
Definition StrDict : Type := list (string * string).

Fixpoint dict_set (k v : string) (d : StrDict) : StrDict :=
  match d with
  | [] => [(k, v)]
  | (k', v') :: r =>
      if String.eqb k k' then (k, v) :: r else (k', v') :: dict_set k v r
  end.

Fixpoint dict_get (k : string) (d : StrDict) : option string :=
  match d with
  | [] => None
  | (k', v') :: r => if String.eqb k k' then Some v' else dict_get k r
  end.

(** [str(d)] for such a dict: [{'k': 'v', ...}] *)
Definition dict_str (d : StrDict) : string :=
  "{" +:+ join ", " (map (fun kv => py_repr_str (fst kv) +:+ ": " +:+ py_repr_str (snd kv)) d) +:+ "}".

(** An aware UTC [datetime], as [datetime.now(timezone.utc)] returns it. *)
Record DateTime : Type := mkDateTime {
  year : N; month : N; day : N;
  hour : N; minute : N; second : N; microsecond : N
}.

(** The [width] low decimal digits of [n], zero padded ([%0<width>d]). *)
Fixpoint zero_pad (width : nat) (n : N) : string :=
  match width with
  | O => ""
  | S w => zero_pad w (n / 10)%N +:+ String (ascii_of_N (48 + n mod 10)%N) ""
  end.

(** [datetime.isoformat()] of an aware UTC datetime:
    [YYYY-MM-DDTHH:MM:SS[.ffffff]+00:00] *)
Definition isoformat (d : DateTime) : string :=
  zero_pad 4 (year d) +:+ "-" +:+ zero_pad 2 (month d) +:+ "-" +:+ zero_pad 2 (day d)
  +:+ "T" +:+ zero_pad 2 (hour d) +:+ ":" +:+ zero_pad 2 (minute d) +:+ ":" +:+ zero_pad 2 (second d)
  +:+ (if (microsecond d =? 0)%N then "" else "." +:+ zero_pad 6 (microsecond d))
  +:+ "+00:00".

End Py.

Export Py.

(** ** The request and response models

  [app.models.semantic] declares the pydantic models; the endpoints only
  read and write the fields below.  Optional fields are [option]s, a
  constructor's arguments are stored as they are passed. *)

Module Model.

Record User : Type := mkUser { u_id : string }.

Record Message : Type := mkMessage {
  m_type : string; m_role : string; m_content : string
}.

Record Metadata : Type := mkMetadata {
  md_session_id : string;
  md_user_id : string;
  md_mode : string;
  md_timestamp : option string
}.

Record RequestPayload : Type := mkRequestPayload {
  rp_messages : option (list Message);
  rp_input : option string;
  rp_metadata : Metadata;
  rp_model : option string;
  rp_temperature : option PyVal;
  rp_max_tokens : option PyVal
}.

Record ResponsePayload : Type := mkResponsePayload {
  resp_messages : list Message;
  resp_metadata : Metadata;
  resp_usage : PyVal
}.

Record ProcessRequestInput : Type := mkProcessRequestInput {
  pri_text : string; pri_session_id : string; pri_user_id : string
}.

Record ProcessRequestOutput : Type := mkProcessRequestOutput {
  pro_status : PyVal;
  pro_message : PyVal;
  pro_intent : PyVal;
  pro_data : gmap string PyVal;
  pro_request_id : string
}.

(** [metadata.timestamp = t] on the shared metadata object *)
Definition set_timestamp (t : string) (md : Metadata) : Metadata :=
  {| md_session_id := md_session_id md; md_user_id := md_user_id md;
     md_mode := md_mode md; md_timestamp := Some t |}.

(** The dict the completion call returns, seen through the two keys the
    endpoint reads; [None] is a missing key. *)
Record CompletionDict : Type := mkCompletionDict {
  cd_messages : option (list Message);
  cd_usage : option PyVal
}.

End Model.

Export Model.

(** ** Effects: a trace of collaborator calls, and exceptions *)

Module Eff.

Inductive Level : Type := DEBUG | INFO | WARNING | ERROR | EXCEPTION.

(** What a log line interpolates into its template. *)
Inductive LogArg : Type :=
| LStr (s : string)
| LVal (v : PyVal)
| LDict (d : gmap string PyVal)
| LExc (e : PyExc)
| LLen (n : nat).

(** A loguru logger after [logger.bind(...)]: the bound context. *)
Definition Logger : Type := list (string * string).

Inductive Event : Type :=
| EvLog (ctx : Logger) (lvl : Level) (template : string) (args : list LogArg)
| EvLLMProcessRequest (messages : list Message) (mode : string)
    (model : option string) (temperature max_tokens : option PyVal)
| EvLLMIntent (text session_id : string)
| EvDispatch (intent entities : PyVal) (user_id : string)
| EvHandler (intent : string) (entities : PyVal) (user_id : string)
| EvUtcNow
| EvPingDatabase
| EvPingRedis.

Inductive Outcome (A : Type) : Type :=
| Returned (a : A)
| Raised (e : PyExc).
Arguments Returned {A} a.
Arguments Raised {A} e.

(** A computation: the events it left, in order, and how it ended. *)
Definition M (A : Type) : Type := list Event * Outcome A.

Definition ret {A} (a : A) : M A := ([], Returned a).
Definition raise {A} (e : PyExc) : M A := ([], Raised e).
Definition emit (ev : Event) : M unit := ([ev], Returned tt).
Definition lift {A} (o : Outcome A) : M A := ([], o).

Definition bind {A B} (m : M A) (f : A -> M B) : M B :=
  match m with
  | (t, Raised e) => (t, Raised e)
  | (t, Returned a) => let '(t', r) := f a in (t ++ t', r)
  end.

(** [try: m  except Exception as e: h e] *)
Definition try_except {A} (m : M A) (h : PyExc -> M A) : M A :=
  match m with
  | (t, Raised e) => let '(t', r) := h e in (t ++ t', r)
  | (t, Returned a) => (t, Returned a)
  end.

(** Whether a collaborator's call returned rather than raised. *)
Definition returned {A} (o : Outcome A) : bool :=
  match o with
  | Returned _ => true
  | Raised _ => false
  end.

Definition trace {A} (m : M A) : list Event := fst m.
Definition outcome {A} (m : M A) : Outcome A := snd m.

(** [log.info(f"...")] and its siblings on a bound logger *)
Definition log_at (lvl : Level) (l : Logger) (template : string) (args : list LogArg) : M unit :=
  emit (EvLog l lvl template args).
Definition log_debug := log_at DEBUG.
Definition log_info := log_at INFO.
Definition log_warning := log_at WARNING.
Definition log_error := log_at ERROR.
Definition log_exception := log_at EXCEPTION.

Definition is_llm_call (ev : Event) : bool :=
  match ev with
  | EvLLMProcessRequest _ _ _ _ _ | EvLLMIntent _ _ => true
  | _ => false
  end.

Definition is_handler_call (ev : Event) : bool :=
  match ev with
  | EvHandler _ _ _ => true
  | _ => false
  end.

(** The calls to the LLM client, and the handlers run, in a trace. *)
Definition llm_calls (t : list Event) : list Event := List.filter is_llm_call t.
Definition handler_calls (t : list Event) : list Event := List.filter is_handler_call t.

End Eff.

Export Eff.

(** ** [str.format] with keyword arguments only

    loguru formats the message of a log call that comes with arguments,
    calling [message.format] with them.  The scan below follows CPython's
    replacement-field parser for a call without positional arguments. *)

Module PyFormat.

(** What stands for [str.format]'s rendering of a field that names a
    keyword argument and goes beyond the plain [{name}]: the value, the
    attribute and index part of the field name, the conversion and the
    format spec. *)
Definition FieldRenderer : Type := PyVal -> string -> option ascii -> string -> Outcome string.

Inductive ScanState : Type :=
| InLiteral
| AfterOpen
| AfterClose
| InName (name : string)
| InIndex (name : string)
| AfterBang (name : string)
| AfterConversion (name : string) (conversion : ascii)
| InSpec (name : string) (conversion : option ascii) (depth : nat) (spec : string).

Inductive ScanStep : Type :=
| Goto (st : ScanState)
| Literal (c : ascii)
| Field (name : string) (conversion : option ascii) (spec : string)
| Fail (e : PyExc).

Definition format_error (msg : string) : PyExc := ValueError "ValueError" msg.

Definition snoc (s : string) (c : ascii) : string := s +:+ String c "".

(** A character read inside a field name. *)
Definition name_step (name : string) (c : ascii) : ScanStep :=
  if Ascii.eqb c "{" then Fail (format_error "unexpected '{' in field name")
  else if Ascii.eqb c "[" then Goto (InIndex (snoc name c))
  else if Ascii.eqb c "}" then Field name None ""
  else if Ascii.eqb c ":" then Goto (InSpec name None 1 "")
  else if Ascii.eqb c "!" then Goto (AfterBang name)
  else Goto (InName (snoc name c)).

Definition scan_step (st : ScanState) (c : ascii) : ScanStep :=
  match st with
  | InLiteral =>
      if Ascii.eqb c "{" then Goto AfterOpen
      else if Ascii.eqb c "}" then Goto AfterClose
      else Literal c
  | AfterOpen =>
      if Ascii.eqb c "{" then Literal c else name_step "" c
  | AfterClose =>
      if Ascii.eqb c "}" then Literal c
      else Fail (format_error "Single '}' encountered in format string")
  | InName name => name_step name c
  | InIndex name =>
      if Ascii.eqb c "]" then Goto (InName (snoc name c)) else Goto (InIndex (snoc name c))
  | AfterBang name => Goto (AfterConversion name c)
  | AfterConversion name conversion =>
      if Ascii.eqb c "}" then Field name (Some conversion) ""
      else if Ascii.eqb c ":" then Goto (InSpec name (Some conversion) 1 "")
      else Fail (format_error "expected ':' after conversion specifier")
  | InSpec name conversion depth spec =>
      if Ascii.eqb c "{" then Goto (InSpec name conversion (S depth) (snoc spec c))
      else if Ascii.eqb c "}" then
        match depth with
        | 1%nat => Field name conversion spec
        | _ => Goto (InSpec name conversion (Nat.pred depth) (snoc spec c))
        end
      else Goto (InSpec name conversion depth (snoc spec c))
  end.

(** The end of the format string, by the state it is reached in. *)
Definition scan_end (st : ScanState) (out : string) : Outcome string :=
  match st with
  | InLiteral => Returned out
  | AfterOpen => Raised (format_error "Single '{' encountered in format string")
  | AfterClose => Raised (format_error "Single '}' encountered in format string")
  | InName _ | InIndex _ => Raised (format_error "expected '}' before end of string")
  | AfterBang _ =>
      Raised (format_error "end of string while looking for conversion specifier")
  | AfterConversion _ _ | InSpec _ _ _ _ =>
      Raised (format_error "unmatched '{' in format spec")
  end.

(** The field name up to its first [.] or [[], and the rest. *)
Fixpoint split_name (name : string) : string * string :=
  match name with
  | EmptyString => ("", "")
  | String c r =>
      if Ascii.eqb c "." || Ascii.eqb c "[" then ("", name)
      else let '(first, rest) := split_name r in (String c first, rest)
  end.

Definition is_digit (c : ascii) : bool :=
  let n := N_of_ascii c in ((48 <=? n) && (n <=? 57))%N.

Fixpoint all_digits (s : string) : bool :=
  match s with
  | EmptyString => true
  | String c r => is_digit c && all_digits r
  end.

(** [get_integer]: the digits as an index, unless they overflow. *)
Fixpoint get_integer (acc : N) (s : string) : option N :=
  match s with
  | EmptyString => Some acc
  | String c r =>
      if (9223372036854775807 / 10 <? acc)%N then None
      else get_integer (acc * 10 + (N_of_ascii c - 48))%N r
  end.

Fixpoint kwarg (name : string) (kwargs : list (string * PyVal)) : option PyVal :=
  match kwargs with
  | [] => None
  | (k, v) :: r => if String.eqb name k then Some v else kwarg name r
  end.

Definition index_error (n : N) : PyExc :=
  OtherException "IndexError"
    ("Replacement index " +:+ z_str (Z.of_N n) +:+ " out of range for positional args tuple").

(** One replacement field, with no positional argument to draw on: an
    empty or numeric name is out of range, an unknown keyword a
    [KeyError]; the plain field of a keyword is its [str()]. *)
Definition render_field (render : FieldRenderer) (kwargs : list (string * PyVal))
    (name : string) (conversion : option ascii) (spec : string) : Outcome string :=
  let '(first, rest) := split_name name in
  match first with
  | EmptyString => Raised (index_error 0)
  | _ =>
      if all_digits first then
        match get_integer 0 first with
        | Some n => Raised (index_error n)
        | None => Raised (format_error "Too many decimal digits in format string")
        end
      else
        match kwarg first kwargs with
        | None => Raised (KeyError first)
        | Some v =>
            match rest, conversion, spec with
            | EmptyString, None, EmptyString => Returned (py_str v)
            | _, _, _ => render v rest conversion spec
            end
        end
  end.

Fixpoint scan (render : FieldRenderer) (kwargs : list (string * PyVal))
    (st : ScanState) (out : string) (s : string) : Outcome string :=
  match s with
  | EmptyString => scan_end st out
  | String c r =>
      match scan_step st c with
      | Goto st' => scan render kwargs st' out r
      | Literal c' => scan render kwargs InLiteral (snoc out c') r
      | Field name conversion spec =>
          match render_field render kwargs name conversion spec with
          | Returned text => scan render kwargs InLiteral (out +:+ text) r
          | Raised e => Raised e
          end
      | Fail e => Raised e
      end
  end.

(** [s.format] with the keyword arguments [kwargs] *)
Definition str_format (render : FieldRenderer) (kwargs : list (string * PyVal))
    (s : string) : Outcome string :=
  scan render kwargs InLiteral "" s.

(** No [{] and no [}] in the string. *)
Definition brace_free (s : string) : bool :=
  negb (contains "{" s) && negb (contains "}" s).

End PyFormat.

Export PyFormat.

Notation "x <- m ;; k" := (bind m (fun x => k))
  (at level 100, m at next level, right associativity).
Notation "m ;;; k" := (bind m (fun _ => k))
  (at level 100, right associativity).

(** ** api/endpoints/semantic.py *)

Module Semantic.

(** What the endpoint reads from its surroundings: [str(uuid.uuid4())] and
    [datetime.now(timezone.utc)]. *)
Record Env : Type := mkEnv { uuid4 : string; utcnow : DateTime }.

(** [app.services.llm_client.BaseLLMClient]: the two awaited methods.  A
    method returns or raises; each endpoint calls one of them once. *)
Record BaseLLMClient : Type := mkLLMClient {
  llm_process_request :
    list Message -> string -> option string -> option PyVal -> option PyVal ->
    Outcome CompletionDict;
  get_intent_and_entities : string -> string -> Outcome (gmap string PyVal)
}.

(** The type of [app.services.dispatcher.dispatch_intent(intent, entities, user_id)]. *)
Definition DispatchIntent : Type := PyVal -> PyVal -> string -> M (gmap string PyVal).

(** [d[k]] *)
Definition getitem (d : gmap string PyVal) (k : string) : M PyVal :=
  match d !! k with
  | Some v => ret v
  | None => raise (KeyError k)
  end.

(** Lines 63-81: the [messages] the request resolves to. *)
Definition effective_messages (log : Logger) (payload : RequestPayload) : M (list Message) :=
  if truthy_list (rp_messages payload) then
    ret (default [] (rp_messages payload))
  else if truthy_str (rp_input payload) then
    ret [mkMessage "text" "user" (default "" (rp_input payload))]
  else
    log_error log "Request missing both 'input' and 'messages'" [] ;;;
    raise (HTTPException HTTP_400_BAD_REQUEST
             "Request must contain either 'input' or 'messages'").

(** Lines 62-104: the body of the [try]. *)
Definition process_request_try (env : Env) (llm_client : BaseLLMClient)
    (log : Logger) (payload : RequestPayload) : M ResponsePayload :=
  messages <- effective_messages log payload ;;
  emit (EvLLMProcessRequest messages (md_mode (rp_metadata payload))
          (rp_model payload) (rp_temperature payload) (rp_max_tokens payload)) ;;;
  response <- lift (llm_process_request llm_client messages
                      (md_mode (rp_metadata payload)) (rp_model payload)
                      (rp_temperature payload) (rp_max_tokens payload)) ;;
  metadata <- (if negb (truthy_str (md_timestamp (rp_metadata payload))) then
                 emit EvUtcNow ;;;
                 ret (set_timestamp (isoformat (utcnow env)) (rp_metadata payload))
               else ret (rp_metadata payload)) ;;
  response_messages <- match cd_messages response with
                       | Some l => ret l
                       | None => raise (KeyError "messages")
                       end ;;
  let result := mkResponsePayload response_messages metadata
                  (default PyNone (cd_usage response)) in
  log_info log "Request processed successfully: {} messages returned"
    [LLen (length (resp_messages result))] ;;;
  ret result.

(** Lines 106-117: the two [except] clauses, tried in order. *)
Definition process_request_except (log : Logger) (e : PyExc) : M ResponsePayload :=
  if is_ValueError e then
    log_warning log "Invalid request parameters: {}" [LExc e] ;;;
    raise (HTTPException HTTP_400_BAD_REQUEST (exc_str e))
  else
    log_exception log "Error processing request: {}" [LExc e] ;;;
    raise (HTTPException HTTP_500_INTERNAL_SERVER_ERROR
             "An error occurred while processing the request").

(** [logger.bind(request_id=..., user_id=..., session_id=...)] *)
Definition logger_bind (request_id user_id session_id : string) : Logger :=
  [("request_id", request_id); ("user_id", user_id); ("session_id", session_id)].

Definition process_request (env : Env) (llm_client : BaseLLMClient)
    (payload : RequestPayload) (current_user : User) : M ResponsePayload :=
  let request_id := uuid4 env in
  let log := logger_bind request_id (u_id current_user)
               (md_session_id (rp_metadata payload)) in
  log_info log "Processing request: mode={}, model={}"
    [LStr (md_mode (rp_metadata payload)); LStr (str_or (rp_model payload) "default")] ;;;
  if negb (String.eqb (md_user_id (rp_metadata payload)) (u_id current_user)) then
    log_warning log "User ID mismatch: payload={}, token={}"
      [LStr (md_user_id (rp_metadata payload)); LStr (u_id current_user)] ;;;
    raise (HTTPException HTTP_403_FORBIDDEN
             "User ID in payload does not match authenticated user")
  else
    try_except (process_request_try env llm_client log payload)
               (process_request_except log).

(** The default [message] of line 187. *)
Definition default_message (intent : PyVal) : string :=
  "Action for intent '" +:+ py_str intent +:+ "' completed.".

(** Lines 167-195: the body of the [try].  [llm_response] is read-only
    after the call, so each of its two keys is subscripted once here, at
    the first place the source does ([KeyError] there ends the body). *)
Definition legacy_process_request_try (llm_client : BaseLLMClient)
    (dispatch_intent : DispatchIntent) (log : Logger) (request_id : string)
    (request_data : ProcessRequestInput) (current_user : User) : M ProcessRequestOutput :=
  emit (EvLLMIntent (pri_text request_data) (pri_session_id request_data)) ;;;
  llm_response <- lift (get_intent_and_entities llm_client
                          (pri_text request_data) (pri_session_id request_data)) ;;
  intent <- getitem llm_response "intent" ;;
  entities <- getitem llm_response "entities" ;;
  log_info log "LLM Result: Intent='{}', Entities={}" [LVal intent; LVal entities] ;;;
  emit (EvDispatch intent entities (u_id current_user)) ;;;
  dispatcher_result <- dispatch_intent intent entities (u_id current_user) ;;
  log_info log "Dispatch successful for intent '{}'. Result: {}"
    [LVal intent; LDict dispatcher_result] ;;;
  let final_status := default (PyStr "success") (dispatcher_result !! "status") in
  let final_message :=
    default (PyStr (default_message intent)) (dispatcher_result !! "message") in
  ret (mkProcessRequestOutput final_status final_message intent
         dispatcher_result request_id).

(** Lines 197-208 *)
Definition legacy_process_request_except (log : Logger) (e : PyExc) : M ProcessRequestOutput :=
  if is_ValueError e then
    log_warning log "Value Error: {}" [LExc e] ;;;
    raise (HTTPException HTTP_400_BAD_REQUEST (exc_str e))
  else
    log_exception log "Unexpected error: {}" [LExc e] ;;;
    raise (HTTPException HTTP_500_INTERNAL_SERVER_ERROR "Internal server error").

Definition legacy_process_request (env : Env) (llm_client : BaseLLMClient)
    (dispatch_intent : DispatchIntent)
    (request_data : ProcessRequestInput) (current_user : User) : M ProcessRequestOutput :=
  let request_id := uuid4 env in
  let log := logger_bind request_id (u_id current_user) (pri_session_id request_data) in
  log_info log "Received legacy process_request: '{}'" [LStr (pri_text request_data)] ;;;
  if negb (String.eqb (pri_user_id request_data) (u_id current_user)) then
    log_warning log "User ID mismatch: payload={}, token={}"
      [LStr (pri_user_id request_data); LStr (u_id current_user)] ;;;
    raise (HTTPException HTTP_403_FORBIDDEN
             "User ID in payload does not match authenticated user")
  else
    try_except
      (legacy_process_request_try llm_client dispatch_intent log request_id
         request_data current_user)
      (legacy_process_request_except log).

End Semantic.

Export Semantic.

(** ** The intent dispatcher *)

Module Dispatcher.

(** A registered handler: given the entities and the caller's id it returns
    its result dict or raises. *)
Definition Handler : Type := PyVal -> string -> Outcome (gmap string PyVal).

(** Modelled from the spec: the error [dispatch_intent] raises for an intent
    without a handler ([app/services/dispatcher.py] is not among the
    sources).  The spec calls it a distinct "unroutable intent" error that
    the orchestrator must map to a client error, one of the validation-class
    errors of its taxonomy; the orchestrator's client-error clause is
    [except ValueError], so the error is a subclass of [ValueError], here
    carrying the intent it was raised for. *)
Definition UnroutableIntent (intent : PyVal) : PyExc :=
  ValueError "UnroutableIntent" (py_str intent).

(** Modelled from the spec: [app.services.dispatcher.dispatch_intent], which
    is not among the sources.  "Given an intent name, an entity mapping, and
    a user id, locates a handler registered for that intent and invokes it";
    an unknown intent is the unroutable-intent error; a handler's own
    failure propagates as it is, so it stays apart from "intent not found".
    The registry maps intent names to handlers; a value that is not a string
    names no intent.  The defaults for a missing [status] or [message] are
    filled in by the orchestrator (lines 186-187). *)
Definition dispatch_intent (registry : gmap string Handler)
    (intent entities : PyVal) (user_id : string) : M (gmap string PyVal) :=
  match intent with
  | PyStr name =>
      match registry !! name with
      | Some handler =>
          emit (EvHandler name entities user_id) ;;;
          lift (handler entities user_id)
      | None => raise (UnroutableIntent intent)
      end
  | _ => raise (UnroutableIntent intent)
  end.

End Dispatcher.

(** ** api/endpoints/status.py *)

Module Status.

(** [trace_id_var.get()] and [uuid.uuid4().hex], and what [str.format]
    makes of a replacement field beyond the plain one. *)
Record StatusEnv : Type := mkStatusEnv {
  trace_id_var : option string;
  uuid4_hex : string;
  format_field : FieldRenderer
}.

(** [app.models.api_common.StatusResponse], as the endpoint builds it *)
Record StatusResponse : Type := mkStatusResponse {
  sr_status : string;
  sr_message : string
}.

(** The two locals the checks update. *)
Record HealthState : Type := mkHealthState {
  component_statuses : StrDict;
  overall_ok : bool
}.

Definition set_component (k v : string) (st : HealthState) : HealthState :=
  {| component_statuses := dict_set k v (component_statuses st);
     overall_ok := overall_ok st |}.

Definition set_not_ok (st : HealthState) : HealthState :=
  {| component_statuses := component_statuses st; overall_ok := false |}.

(** [message.format(exc_info=False)] *)
Definition format_exc_info_false (env : StatusEnv) (message : string) : Outcome string :=
  str_format (format_field env) [("exc_info", PyBool false)] message.

(** [log.error(message, exc_info=False)].  The keyword makes loguru format
    the message, which is already the rendered f-string, and an exception
    of that formatting leaves the call; the keyword is captured into the
    context of the line. *)
Definition log_error_exc_info_false (env : StatusEnv) (log : Logger) (message : string) : M unit :=
  formatted <- lift (format_exc_info_false env message) ;;
  emit (EvLog (log ++ [("exc_info", "False")]) ERROR formatted []).

(** The f-strings of lines 46 and 56. *)
Definition mongodb_failed (e : PyExc) : string :=
  "MongoDB connection check failed: " +:+ exc_str e.
Definition redis_failed (e : PyExc) : string :=
  "Redis connection check failed: " +:+ exc_str e.

(** Lines 40-48; [ping] is how [await db.command('ping')] ends. *)
Definition check_mongodb (env : StatusEnv) (log : Logger) (ping : Outcome unit)
    (st : HealthState) : M HealthState :=
  try_except
    (emit EvPingDatabase ;;;
     lift ping ;;;
     let st := set_component "database_mongodb" "ok" st in
     log_debug log "MongoDB ping successful." [] ;;;
     ret st)
    (fun e =>
       log_error_exc_info_false env log (mongodb_failed e) ;;;
       ret (set_not_ok (set_component "database_mongodb" "error" st))).

(** Lines 50-58; [ping] is how [await redis.ping()] ends. *)
Definition check_redis (env : StatusEnv) (log : Logger) (ping : Outcome unit)
    (st : HealthState) : M HealthState :=
  try_except
    (emit EvPingRedis ;;;
     lift ping ;;;
     let st := set_component "cache_broker_redis" "ok" st in
     log_debug log "Redis ping successful." [] ;;;
     ret st)
    (fun e =>
       log_error_exc_info_false env log (redis_failed e) ;;;
       ret (set_not_ok (set_component "cache_broker_redis" "error" st))).

(** Lines 37-76: the checks, from the empty dict and [overall_ok = True]. *)
Definition check_components (env : StatusEnv) (log : Logger)
    (db_ping redis_ping : Outcome unit) : M HealthState :=
  let st := mkHealthState [] true in
  st <- check_mongodb env log db_ping st ;;
  st <- check_redis env log redis_ping st ;;
  ret (set_component "celery_workers" "check_not_implemented" st).

(** Line 79 *)
Definition final_status (st : HealthState) : string :=
  if overall_ok st then "ok" else "error".

(** Line 80 *)
Definition status_message (st : HealthState) : string :=
  "Overall: " +:+ upper (final_status st) +:+ " | Components: "
  +:+ dict_str (component_statuses st).

Definition get_application_status (env : StatusEnv)
    (db_ping redis_ping : Outcome unit) : M StatusResponse :=
  let trace_id := str_or (trace_id_var env)
                    ("status_" +:+ String.substring 0 8 (uuid4_hex env)) in
  let log : Logger := [("trace_id", trace_id); ("api_endpoint", "/status GET")] in
  log_info log "Performing application status check..." [] ;;;
  st <- check_components env log db_ping redis_ping ;;
  log_info log "Status check completed: {}" [LStr (status_message st)] ;;;
  if negb (overall_ok st) then
    raise (HTTPException HTTP_503_SERVICE_UNAVAILABLE (status_message st))
  else
    ret (mkStatusResponse (final_status st) "All critical components operational.").

End Status.

Export Status.

(** ** Sample collaborators and requests *)

Module Samples.

Definition env0 : Env :=
  mkEnv "3f2b8c1e-7a4d-4e0b-9c55-0d6a1f2e3b4c" (mkDateTime 2024 3 9 7 5 0 1234).

Definition alice : User := mkUser "alice".

Definition answer : CompletionDict :=
  mkCompletionDict (Some [mkMessage "text" "assistant" "hi there"]) None.

(** A client whose calls succeed. *)
Definition llm_up : BaseLLMClient :=
  mkLLMClient
    (fun _ _ _ _ _ => Returned answer)
    (fun _ _ => Returned (<["intent" := PyStr "create_order"]>
                           (<["entities" := PyOther "dict" "{'qty': 2}"]> ∅))).

(** A client whose backend is down, and one that fails in another way. *)
Definition llm_down : BaseLLMClient :=
  mkLLMClient
    (fun _ _ _ _ _ => Raised (OtherException "ConnectionError" "10.0.0.7:8443 refused"))
    (fun _ _ => Raised (OtherException "ConnectionError" "10.0.0.7:8443 refused")).

Definition llm_timeout : BaseLLMClient :=
  mkLLMClient
    (fun _ _ _ _ _ => Raised (OtherException "TimeoutError" "api key sk-123 timed out"))
    (fun _ _ => Raised (OtherException "TimeoutError" "api key sk-123 timed out")).

Definition meta (user_id : string) (timestamp : option string) : Metadata :=
  mkMetadata "s-1" user_id "chat" timestamp.

Definition payload_hello : RequestPayload :=
  mkRequestPayload None (Some "hello") (meta "alice" None) None None None.

Definition payload_empty : RequestPayload :=
  mkRequestPayload (Some []) (Some "") (meta "alice" None) None None None.

Definition payload_mallory : RequestPayload :=
  mkRequestPayload None (Some "hello") (meta "mallory" None) None None None.

Definition payload_stamped : RequestPayload :=
  mkRequestPayload None (Some "hello") (meta "alice" (Some "2020-01-01T00:00:00Z"))
    None None None.

Definition legacy_req : ProcessRequestInput :=
  mkProcessRequestInput "order two coffees" "s-1" "alice".

(** A dispatcher whose handler result has neither [status] nor [message]. *)
Definition dispatch_bare : DispatchIntent :=
  fun _ _ _ => ret (<["order_id" := PyOther "int" "42"]> ∅).

Definition dispatch_broken : DispatchIntent :=
  fun _ _ _ => raise (OtherException "RuntimeError" "mongodb://10.0.0.9 write failed").

(** A registry with one handler. *)
Definition sample_registry : gmap string Dispatcher.Handler :=
  <["cancel_order" := fun _ _ => Returned (<["status" := PyStr "cancelled"]> ∅)]> ∅.

Definition ping_ok : Outcome unit := Returned tt.
Definition ping_down : Outcome unit :=
  Raised (OtherException "ConnectionError" "connection refused").
(** A renderer for the fields beyond the plain one; no sample reaches it. *)
Definition render0 : FieldRenderer :=
  fun _ _ _ _ => Raised (ValueError "ValueError" "Invalid format specifier").
Definition status_env0 : StatusEnv :=
  mkStatusEnv None "0123456789abcdef0123456789abcdef" render0.
(** A datastore failure as pymongo words it, the server's reply included. *)
Definition ping_denied : Outcome unit :=
  Raised (OtherException "OperationFailure"
            "not authorized on admin, full error: {'ok': 0.0, 'code': 13}").

End Samples.

Import Samples.

(** ** What a trace and an outcome show *)

Module Observe.

Definition is_dispatch_call (ev : Event) : bool :=
  match ev with
  | EvDispatch _ _ _ => true
  | _ => false
  end.

Definition is_ping (ev : Event) : bool :=
  match ev with
  | EvPingDatabase | EvPingRedis => true
  | _ => false
  end.

(** The calls to [dispatch_intent], and the probes, in a trace. *)
Definition dispatch_calls (t : list Event) : list Event := List.filter is_dispatch_call t.
Definition pings (t : list Event) : list Event := List.filter is_ping t.

(** The bound contexts of the log lines of a trace. *)
Fixpoint log_contexts (t : list Event) : list Logger :=
  match t with
  | [] => []
  | EvLog ctx _ _ _ :: r => ctx :: log_contexts r
  | _ :: r => log_contexts r
  end.

(** An outcome that is a return, or an [HTTPException] with one of the
    given status codes. *)
Definition returns_or_http {A} (codes : list Z) (o : Outcome A) : Prop :=
  match o with
  | Returned _ => True
  | Raised (HTTPException c _) => In c codes
  | Raised _ => False
  end.

(** What the health check records for a probe. *)
Definition probe_status (ping : Outcome unit) : string :=
  if returned ping then "ok" else "error".

(** The exception, if any, that ends a check while it logs the failure of
    its probe: [message] is the check's f-string. *)
Definition logging_failure (env : StatusEnv) (message : PyExc -> string)
    (ping : Outcome unit) : option PyExc :=
  match ping with
  | Returned _ => None
  | Raised e =>
      match format_exc_info_false env (message e) with
      | Returned _ => None
      | Raised x => Some x
      end
  end.

End Observe.

Export Observe.

(** ** api/v1.py and the import of api/endpoints/status.py: the
    statements of a module, run in order *)

Module V1.

(** One [include_router] (or route decorator) that took effect. *)
Record Mount : Type := mkMount {
  mt_router : string;
  mt_prefix : string;
  mt_tags : list string
}.

(** A module's namespace (the names bound so far, newest first, in front
    of the builtins) and the mounts made on its router. *)
Record ModuleState : Type := mkModuleState {
  ms_names : list string;
  ms_mounts : list Mount
}.

Definition Step : Type := ModuleState -> ModuleState * Outcome unit.

Definition bound (n : string) (st : ModuleState) : bool :=
  existsb (String.eqb n) (ms_names st).

Definition NameError (n : string) : PyExc :=
  OtherException "NameError" ("name '" +:+ n +:+ "' is not defined").

Definition bind_names (names : list string) (st : ModuleState) : ModuleState :=
  {| ms_names := rev names ++ ms_names st; ms_mounts := ms_mounts st |}.

(** [from module import n1, n2, ...] and [import n] of a module that is
    not among the sources: it is taken to exist and to define the names. *)
Definition import_from (module : string) (names : list string) : Step :=
  fun st => (bind_names names st, Returned tt).

(** [n = APIRouter()] *)
Definition assign_api_router (n : string) : Step :=
  fun st =>
    if bound "APIRouter" st then (bind_names [n] st, Returned tt)
    else (st, Raised (NameError "APIRouter")).

(** The names an expression or a signature mentions, looked up in order:
    the first one that is not bound is a [NameError]. *)
Fixpoint lookup_all (names : list string) (st : ModuleState) : Outcome unit :=
  match names with
  | [] => Returned tt
  | n :: rest => if bound n st then lookup_all rest st else Raised (NameError n)
  end.

(** [router.include_router(sub, prefix=..., tags=[...])] on the router
    named [api]: the receiver and then the argument are looked up. *)
Definition include_router (api router prefix : string) (tags : list string) : Step :=
  fun st =>
    match lookup_all [api; router] st with
    | Raised e => (st, Raised e)
    | Returned _ =>
        ({| ms_names := ms_names st;
            ms_mounts := ms_mounts st ++ [mkMount router prefix tags] |},
         Returned tt)
    end.

(** [@router.get(path, ...)] over [async def name(params): ...].  The
    decorator expression, the defaults and the annotations of the
    parameters are evaluated when the function is defined, [needs] listing
    the names they mention in that order; the body is not run. *)
Definition def_route (api path : string) (tags : list string)
    (needs : list string) (name : string) : Step :=
  fun st =>
    match lookup_all (api :: needs) st with
    | Raised e => (st, Raised e)
    | Returned _ =>
        (bind_names [name]
           {| ms_names := ms_names st;
              ms_mounts := ms_mounts st ++ [mkMount name path tags] |},
         Returned tt)
    end.

(** Statements run in order; the first exception ends the import. *)
Fixpoint exec (steps : list Step) (st : ModuleState) : ModuleState * Outcome unit :=
  match steps with
  | [] => (st, Returned tt)
  | step :: rest =>
      match step st with
      | (st', Returned _) => exec rest st'
      | (st', Raised e) => (st', Raised e)
      end
  end.

(** [from package import name] of a module whose source is at hand: its
    statements run in a namespace of their own, and an exception of theirs
    is the exception of the import. *)
Definition import_module (builtins : list string) (body : list Step) (name : string) : Step :=
  fun st =>
    match exec body (mkModuleState builtins []) with
    | (_, Raised e) => (st, Raised e)
    | (_, Returned _) => (bind_names [name] st, Returned tt)
    end.

(** Lines 3-92 of [api/endpoints/status.py].  The signature of lines 23-28
    names [AsyncIOMotorDatabase], which line 92 imports. *)
Definition status_module : list Step :=
  [ import_from "fastapi" ["APIRouter"; "Depends"; "HTTPException"; "http_status"];
    import_from "loguru" ["logger"];
    import_from "uuid" ["uuid"];
    import_from "redis.asyncio" ["Redis"];
    import_from "asyncio" ["asyncio"];
    import_from "app.models.api_common" ["StatusResponse"];
    import_from "app.core.logging_config" ["trace_id_var"];
    import_from "app.core.database" ["get_database"; "get_redis_client"];
    import_from "app.worker.celery_app" ["celery_app"];
    assign_api_router "router";
    def_route "router" "" ["Status"]
      ["StatusResponse"; "Depends"; "get_database"; "Depends"; "get_redis_client";
       "AsyncIOMotorDatabase"; "Redis"]
      "get_application_status";
    import_from "motor.motor_asyncio" ["AsyncIOMotorDatabase"] ].

(** Lines 3-48 of [api/v1.py], over the statements [status_body] of the
    status module that line 19 imports; [status.router] is reached through
    the name [status]. *)
Definition v1_module_over (builtins : list string) (status_body : list Step) : list Step :=
  [ import_from "fastapi" ["APIRouter"];
    import_from "app.modules.people.routers" ["auth_router"; "users_router"];
    import_from "app.modules.sales.routers" ["products_router"; "orders_router"];
    import_from "app.modules.delivery.routers" ["delivery_router"];
    import_from "app.modules.agreements.routers" ["agreement_router"];
    import_from "app.modules.tasks.routers" ["tasks_router"];
    import_from "app.modules.banking.routers" ["banking_router"];
    import_from "app.modules.finance.routers" ["finance_router"];
    import_from "app.modules.office.routers" ["office_router"];
    import_from "app.modules.stock.routers" ["stock_router"];
    import_from "app.modules.advisor.routers" ["advisor_router"];
    import_from "app.modules.gateway.routers" ["gateway_router"];
    import_module builtins status_body "status";
    assign_api_router "api_v1_router";
    include_router "api_v1_router" "auth_router" "/auth" ["Authentication"];
    include_router "api_v1_router" "users_router" "/users" ["Users & People"];
    include_router "api_v1_router" "products_router" "/products" ["Sales - Products"];
    include_router "api_v1_router" "orders_router" "/orders" ["Sales - Orders"];
    include_router "api_v1_router" "stock_router" "/stock" ["Stock & RFID"];
    include_router "api_v1_router" "delivery_router" "/deliveries" ["Delivery"];
    include_router "api_v1_router" "agreements_router" "/agreements" ["Agreements"];
    include_router "api_v1_router" "tasks_router" "/tasks" ["Tasks"];
    include_router "api_v1_router" "banking_router" "/banking" ["Banking"];
    include_router "api_v1_router" "finance_router" "/finance" ["Finance & Reports"];
    include_router "api_v1_router" "office_router" "/office" ["Office & Admin"];
    include_router "api_v1_router" "advisor_router" "/advisor" ["AI Advisor"];
    include_router "api_v1_router" "gateway_router" "/gateway" ["LLM Gateway"];
    include_router "api_v1_router" "status" "/status" ["Status"];
    def_route "api_v1_router" "/" ["API Root"] [] "read_v1_root" ].

(** [api/v1.py] as it stands. *)
Definition v1_module (builtins : list string) : list Step :=
  v1_module_over builtins status_module.

End V1.

(** ** More sample collaborators *)

Module MoreSamples.

(** A client that rejects the parameters. *)
Definition llm_invalid : BaseLLMClient :=
  mkLLMClient
    (fun _ _ _ _ _ => Raised (ValueError "ValueError" "unsupported mode: chat"))
    (fun _ _ => Raised (ValueError "ValueError" "text must not be empty")).

(** A client whose completion dict has no [messages] key, and whose intent
    dict has no [entities] key. *)
Definition llm_incomplete : BaseLLMClient :=
  mkLLMClient
    (fun _ _ _ _ _ => Returned (mkCompletionDict None (Some (PyOther "dict" "{'tokens': 3}"))))
    (fun _ _ => Returned (<["intent" := PyStr "create_order"]> ∅)).

Definition answer_with_usage : CompletionDict :=
  mkCompletionDict (Some [mkMessage "text" "assistant" "hi there"])
    (Some (PyOther "dict" "{'tokens': 3}")).

Definition llm_metered : BaseLLMClient :=
  mkLLMClient (fun _ _ _ _ _ => Returned answer_with_usage)
    (fun _ _ => Returned ∅).

Definition dispatch_invalid : DispatchIntent :=
  fun _ _ _ => raise (ValueError "ValueError" "quantity must be positive").

Definition legacy_req_mallory : ProcessRequestInput :=
  mkProcessRequestInput "order two coffees" "s-1" "mallory".

Definition status_env_traced : StatusEnv :=
  mkStatusEnv (Some "req-77") "0123456789abcdef0123456789abcdef" render0.

End MoreSamples.

Import MoreSamples.

(** ** The string helpers on examples *)

Example isoformat_ex :
  isoformat (mkDateTime 2024 3 9 7 5 0 0) = "2024-03-09T07:05:00+00:00"
  /\ isoformat (mkDateTime 2024 3 9 7 5 0 1234) = "2024-03-09T07:05:00.001234+00:00".
Proof. split; reflexivity. Qed.

Example upper_ex : upper "error" = "ERROR" /\ upper "ok" = "OK".
Proof. split; reflexivity. Qed.

Example dict_set_keeps_place :
  dict_set "a" "2" [("a", "1"); ("b", "1")] = [("a", "2"); ("b", "1")]
  /\ dict_str [("a", "2"); ("b", "1")] = "{'a': '2', 'b': '1'}".
Proof. split; reflexivity. Qed.

(** ** General facts about the two endpoints *)

Lemma bind_outcome_raised {A B} (m : M A) (f : A -> M B) e :
  outcome m = Raised e -> outcome (bind m f) = Raised e.
Proof.
  destruct m as [t [a|e']]; simpl; intros H; [discriminate | congruence].
Qed.

Lemma try_except_outcome_raised {A} (m : M A) (h : PyExc -> M A) e :
  outcome m = Raised e -> outcome (try_except m h) = outcome (h e).
Proof.
  destruct m as [t [a|e']]; simpl; intros H; [discriminate |].
  injection H as ->. destruct (h e); reflexivity.
Qed.

Lemma try_except_outcome_returned {A} (m : M A) (h : PyExc -> M A) a :
  outcome m = Returned a -> outcome (try_except m h) = Returned a.
Proof.
  destruct m as [t [a'|e']]; simpl; intros H; [exact H | discriminate].
Qed.

Lemma try_except_returned_inv {A} (m : M A) (h : PyExc -> M A) a :
  (forall e, exists e', outcome (h e) = Raised e') ->
  outcome (try_except m h) = Returned a -> outcome m = Returned a.
Proof.
  intros Hh. destruct m as [t [a'|e']]; simpl; [trivial |].
  destruct (Hh e') as [e'' He'']. destruct (h e') as [t' r]; simpl in *.
  subst r. discriminate.
Qed.

Lemma llm_calls_app t1 t2 : llm_calls (t1 ++ t2) = llm_calls t1 ++ llm_calls t2.
Proof. unfold llm_calls. apply List.filter_app. Qed.

(** With the user ids equal, the request goes through to the guarded body. *)
Lemma process_request_authorized env llm payload user :
  md_user_id (rp_metadata payload) = u_id user ->
  let log := logger_bind (uuid4 env) (u_id user) (md_session_id (rp_metadata payload)) in
  process_request env llm payload user =
    (log_info log "Processing request: mode={}, model={}"
       [LStr (md_mode (rp_metadata payload)); LStr (str_or (rp_model payload) "default")] ;;;
     try_except (process_request_try env llm log payload) (process_request_except log)).
Proof.
  intros Heq log. unfold process_request. rewrite Heq, String.eqb_refl. reflexivity.
Qed.

Lemma legacy_process_request_authorized env llm dispatch req user :
  pri_user_id req = u_id user ->
  let log := logger_bind (uuid4 env) (u_id user) (pri_session_id req) in
  legacy_process_request env llm dispatch req user =
    (log_info log "Received legacy process_request: '{}'" [LStr (pri_text req)] ;;;
     try_except (legacy_process_request_try llm dispatch log (uuid4 env) req user)
                (legacy_process_request_except log)).
Proof.
  intros Heq log. unfold legacy_process_request. rewrite Heq, String.eqb_refl. reflexivity.
Qed.

Lemma outcome_log_then {A} lvl l tpl args (m : M A) :
  outcome (log_at lvl l tpl args ;;; m) = outcome m.
Proof. destruct m as [t r]. reflexivity. Qed.

Lemma trace_log_then {A} lvl l tpl args (m : M A) :
  trace (log_at lvl l tpl args ;;; m) = EvLog l lvl tpl args :: trace m.
Proof. destruct m as [t r]. reflexivity. Qed.

(** What the two [except] clauses of [process_request] hand to the caller. *)
Lemma process_request_except_outcome log e :
  outcome (process_request_except log e) =
    if is_ValueError e
    then Raised (HTTPException HTTP_400_BAD_REQUEST (exc_str e))
    else Raised (HTTPException HTTP_500_INTERNAL_SERVER_ERROR
                   "An error occurred while processing the request").
Proof. unfold process_request_except. destruct (is_ValueError e); reflexivity. Qed.

Lemma legacy_process_request_except_outcome log e :
  outcome (legacy_process_request_except log e) =
    if is_ValueError e
    then Raised (HTTPException HTTP_400_BAD_REQUEST (exc_str e))
    else Raised (HTTPException HTTP_500_INTERNAL_SERVER_ERROR "Internal server error").
Proof. unfold legacy_process_request_except. destruct (is_ValueError e); reflexivity. Qed.

Lemma process_request_except_no_llm log e :
  llm_calls (trace (process_request_except log e)) = [].
Proof. unfold process_request_except. destruct (is_ValueError e); reflexivity. Qed.

(** ** The authorization check of [process_request] *)

(** C1: when [payload.metadata.user_id] differs from the authenticated
    user's id, [process_request] raises the 403 authorization error, which
    is none of the 400 validation errors, and the trace holds no call to
    the LLM client. *)
Theorem process_request_user_id_mismatch env llm payload user :
  md_user_id (rp_metadata payload) <> u_id user ->
  outcome (process_request env llm payload user) =
    Raised (HTTPException HTTP_403_FORBIDDEN
              "User ID in payload does not match authenticated user")
  /\ (forall detail, outcome (process_request env llm payload user) <>
                      Raised (HTTPException HTTP_400_BAD_REQUEST detail))
  /\ llm_calls (trace (process_request env llm payload user)) = [].
Proof.
  intros Hne. apply String.eqb_neq in Hne.
  unfold process_request. rewrite Hne. simpl.
  split; [reflexivity | split; [intros detail H; discriminate H | reflexivity]].
Qed.

Lemma process_request_user_id_mismatch_witness :
  outcome (process_request env0 llm_up payload_mallory alice) =
    Raised (HTTPException HTTP_403_FORBIDDEN
              "User ID in payload does not match authenticated user")
  /\ (forall detail, outcome (process_request env0 llm_up payload_mallory alice) <>
                      Raised (HTTPException HTTP_400_BAD_REQUEST detail))
  /\ llm_calls (trace (process_request env0 llm_up payload_mallory alice)) = [].
Proof.
  apply (process_request_user_id_mismatch env0 llm_up payload_mallory alice).
  simpl. discriminate.
Defined.

(** ** The effective messages of [process_request] *)

(** The one call to the LLM client carries the resolved messages; when the
    resolution raises, the client is not called at all. *)
Lemma process_request_llm_calls env llm payload user :
  md_user_id (rp_metadata payload) = u_id user ->
  llm_calls (trace (process_request env llm payload user)) =
    match outcome (effective_messages
                     (logger_bind (uuid4 env) (u_id user) (md_session_id (rp_metadata payload)))
                     payload) with
    | Returned messages =>
        [EvLLMProcessRequest messages (md_mode (rp_metadata payload))
           (rp_model payload) (rp_temperature payload) (rp_max_tokens payload)]
    | Raised _ => []
    end.
Proof.
  intros Heq. rewrite (process_request_authorized _ _ _ _ Heq).
  unfold process_request_try, process_request_except, effective_messages.
  destruct (truthy_list (rp_messages payload)); simpl.
  - destruct (llm_process_request llm _ _ _ _ _) as [r|e]; simpl;
      [| destruct (is_ValueError e); reflexivity].
    destruct (truthy_str (md_timestamp (rp_metadata payload))); simpl;
      destruct (cd_messages r); reflexivity.
  - destruct (truthy_str (rp_input payload)); simpl; [| reflexivity].
    destruct (llm_process_request llm _ _ _ _ _) as [r|e]; simpl;
      [| destruct (is_ValueError e); reflexivity].
    destruct (truthy_str (md_timestamp (rp_metadata payload))); simpl;
      destruct (cd_messages r); reflexivity.
Qed.

(** A request with neither field populated: the 400 raised at line 78 is
    raised inside the [try], is no [ValueError], and so reaches the
    catch-all clause of line 112. *)
Lemma process_request_missing_both env llm payload user :
  md_user_id (rp_metadata payload) = u_id user ->
  truthy_list (rp_messages payload) = false ->
  truthy_str (rp_input payload) = false ->
  outcome (process_request env llm payload user) =
    Raised (HTTPException HTTP_500_INTERNAL_SERVER_ERROR
              "An error occurred while processing the request")
  /\ llm_calls (trace (process_request env llm payload user)) = [].
Proof.
  intros Heq Hm Hi. split.
  - rewrite (process_request_authorized _ _ _ _ Heq).
    unfold process_request_try, effective_messages. rewrite Hm, Hi. reflexivity.
  - rewrite (process_request_llm_calls _ _ _ _ Heq).
    unfold effective_messages. rewrite Hm, Hi. reflexivity.
Qed.

(** C2: a request with matching user id, an empty [messages] list and an
    empty [input].  The body of the [try] raises the 400 malformed-request
    error before any call to the LLM client, but the endpoint's own
    catch-all clause turns it into the generic 500: the caller never sees
    the 400. *)
Theorem process_request_missing_both_is_500 :
  outcome (process_request_try env0 llm_up
             (logger_bind (uuid4 env0) (u_id alice) (md_session_id (rp_metadata payload_empty)))
             payload_empty) =
    Raised (HTTPException HTTP_400_BAD_REQUEST
              "Request must contain either 'input' or 'messages'")
  /\ outcome (process_request env0 llm_up payload_empty alice) =
       Raised (HTTPException HTTP_500_INTERNAL_SERVER_ERROR
                 "An error occurred while processing the request")
  /\ (forall detail, outcome (process_request env0 llm_up payload_empty alice) <>
                       Raised (HTTPException HTTP_400_BAD_REQUEST detail))
  /\ llm_calls (trace (process_request env0 llm_up payload_empty alice)) = [].
Proof.
  split; [reflexivity |].
  destruct (process_request_missing_both env0 llm_up payload_empty alice)
    as [Hout Hcalls]; try reflexivity.
  split; [exact Hout | split; [| exact Hcalls]].
  intros detail. rewrite Hout. discriminate.
Qed.



(** C10: the messages are resolved by truthiness, [messages] first.  A
    non-empty [messages] list is what the LLM client receives, whatever
    [input] holds; a missing or empty list falls through to a non-empty
    [input], promoted to one user message; with [input] missing or empty as
    well, the missing-both branch is taken: the error is logged, the 400 is
    raised inside the [try] and the LLM client is not called. *)
Theorem effective_messages_by_truthiness env llm payload user :
  md_user_id (rp_metadata payload) = u_id user ->
  let log := logger_bind (uuid4 env) (u_id user) (md_session_id (rp_metadata payload)) in
  let call messages :=
    EvLLMProcessRequest messages (md_mode (rp_metadata payload))
      (rp_model payload) (rp_temperature payload) (rp_max_tokens payload) in
  (forall m ms,
     rp_messages payload = Some (m :: ms) ->
     effective_messages log payload = ret (m :: ms)
     /\ llm_calls (trace (process_request env llm payload user)) = [call (m :: ms)])
  /\ (forall c s,
        rp_messages payload = None \/ rp_messages payload = Some [] ->
        rp_input payload = Some (String c s) ->
        effective_messages log payload = ret [mkMessage "text" "user" (String c s)]
        /\ llm_calls (trace (process_request env llm payload user)) =
             [call [mkMessage "text" "user" (String c s)]])
  /\ (rp_messages payload = None \/ rp_messages payload = Some [] ->
      rp_input payload = None \/ rp_input payload = Some "" ->
      effective_messages log payload =
        (log_error log "Request missing both 'input' and 'messages'" [] ;;;
         raise (HTTPException HTTP_400_BAD_REQUEST
                  "Request must contain either 'input' or 'messages'"))
      /\ llm_calls (trace (process_request env llm payload user)) = []).
Proof.
  intros Heq log call. repeat split.
  - unfold effective_messages. rewrite H. reflexivity.
  - rewrite (process_request_llm_calls _ _ _ _ Heq).
    unfold effective_messages. rewrite H. reflexivity.
  - unfold effective_messages. rewrite H0. destruct H as [-> | ->]; reflexivity.
  - rewrite (process_request_llm_calls _ _ _ _ Heq).
    unfold effective_messages. rewrite H0. destruct H as [-> | ->]; reflexivity.
  - unfold effective_messages.
    destruct H as [-> | ->]; destruct H0 as [-> | ->]; reflexivity.
  - rewrite (process_request_llm_calls _ _ _ _ Heq).
    unfold effective_messages.
    destruct H as [-> | ->]; destruct H0 as [-> | ->]; reflexivity.
Qed.

Lemma effective_messages_by_truthiness_witness :
  effective_messages
    (logger_bind (uuid4 env0) (u_id alice) (md_session_id (rp_metadata payload_empty)))
    payload_empty =
    (log_error
       (logger_bind (uuid4 env0) (u_id alice) (md_session_id (rp_metadata payload_empty)))
       "Request missing both 'input' and 'messages'" [] ;;;
     raise (HTTPException HTTP_400_BAD_REQUEST
              "Request must contain either 'input' or 'messages'"))
  /\ llm_calls (trace (process_request env0 llm_up payload_empty alice)) = [].
Proof.
  apply (effective_messages_by_truthiness env0 llm_up payload_empty alice).
  - reflexivity.
  - right. reflexivity.
  - right. reflexivity.
Defined.

(** ** The timestamp of the response *)

Lemma append_nonempty_r (s t : string) : t <> "" -> s +:+ t <> "".
Proof.
  intros Ht. destruct s as [|c s]; simpl; [exact Ht | discriminate].
Qed.

(** An ISO rendering always ends in the UTC offset, so it is never empty. *)
Lemma isoformat_nonempty d : isoformat d <> "".
Proof.
  unfold isoformat. repeat (apply append_nonempty_r). discriminate.
Qed.

(** C7: on a successful [process_request], a timestamp that is absent on
    input (the field is [None], or the empty string, which the test of
    line 93 treats alike) is replaced by the ISO rendering of the clock,
    read after the LLM call, and that rendering is not empty; a timestamp
    that is present is echoed, the metadata of the response being the
    metadata of the request. *)
Theorem process_request_timestamp env llm payload user out :
  outcome (process_request env llm payload user) = Returned out ->
  (md_timestamp (rp_metadata payload) = None \/ md_timestamp (rp_metadata payload) = Some "" ->
     md_timestamp (resp_metadata out) = Some (isoformat (utcnow env))
     /\ isoformat (utcnow env) <> ""
     /\ exists log0 messages log1,
          trace (process_request env llm payload user) =
            [log0;
             EvLLMProcessRequest messages (md_mode (rp_metadata payload))
               (rp_model payload) (rp_temperature payload) (rp_max_tokens payload);
             EvUtcNow; log1])
  /\ (forall c t,
        md_timestamp (rp_metadata payload) = Some (String c t) ->
        resp_metadata out = rp_metadata payload
        /\ md_timestamp (resp_metadata out) = Some (String c t)
        /\ ~ In EvUtcNow (trace (process_request env llm payload user))).
Proof.
  unfold process_request.
  destruct (String.eqb (md_user_id (rp_metadata payload)) (u_id user));
    simpl; [| discriminate].
  unfold process_request_try, process_request_except, effective_messages.
  intros Hout. split.
  - intros Hts.
    assert (Hfalsy : truthy_str (md_timestamp (rp_metadata payload)) = false)
      by (destruct Hts as [-> | ->]; reflexivity).
    rewrite Hfalsy in *. clear Hts Hfalsy.
    destruct (truthy_list (rp_messages payload)); simpl in *.
    + destruct (llm_process_request llm _ _ _ _ _) as [r|e]; simpl in *;
        [| destruct (is_ValueError e); discriminate].
      destruct (cd_messages r); simpl in *; [| discriminate].
      injection Hout as <-. simpl.
      split; [reflexivity | split; [apply isoformat_nonempty | eauto]].
    + destruct (truthy_str (rp_input payload)); simpl in *; [| discriminate].
      destruct (llm_process_request llm _ _ _ _ _) as [r|e]; simpl in *;
        [| destruct (is_ValueError e); discriminate].
      destruct (cd_messages r); simpl in *; [| discriminate].
      injection Hout as <-. simpl.
      split; [reflexivity | split; [apply isoformat_nonempty | eauto]].
  - intros c t Hts. rewrite Hts in *. simpl in *.
    destruct (truthy_list (rp_messages payload)); simpl in *.
    + destruct (llm_process_request llm _ _ _ _ _) as [r|e]; simpl in *;
        [| destruct (is_ValueError e); discriminate].
      destruct (cd_messages r); simpl in *; [| discriminate].
      injection Hout as <-. simpl.
      split; [reflexivity | split; [exact Hts |]].
      intros [H | [H | [H | []]]]; discriminate.
    + destruct (truthy_str (rp_input payload)); simpl in *; [| discriminate].
      destruct (llm_process_request llm _ _ _ _ _) as [r|e]; simpl in *;
        [| destruct (is_ValueError e); discriminate].
      destruct (cd_messages r); simpl in *; [| discriminate].
      injection Hout as <-. simpl.
      split; [reflexivity | split; [exact Hts |]].
      intros [H | [H | [H | []]]]; discriminate.
Qed.

Lemma process_request_timestamp_witness :
  outcome (process_request env0 llm_up payload_hello alice) =
    Returned (mkResponsePayload [mkMessage "text" "assistant" "hi there"]
                (meta "alice" (Some "2024-03-09T07:05:00.001234+00:00")) PyNone)
  /\ md_timestamp (resp_metadata
                    (mkResponsePayload [mkMessage "text" "assistant" "hi there"]
                       (meta "alice" (Some "2024-03-09T07:05:00.001234+00:00")) PyNone)) =
       Some (isoformat (utcnow env0)).
Proof.
  split; [reflexivity |].
  apply (proj1 (process_request_timestamp env0 llm_up payload_hello alice _ eq_refl)).
  left. reflexivity.
Defined.

Example process_request_timestamp_echo :
  outcome (process_request env0 llm_up payload_stamped alice) =
    Returned (mkResponsePayload [mkMessage "text" "assistant" "hi there"]
                (meta "alice" (Some "2020-01-01T00:00:00Z")) PyNone).
Proof. reflexivity. Qed.

(** ** Failures inside the [try] *)

(** An exception that leaves the body of the [try] is handed to the
    [except] clauses. *)
Lemma process_request_body_raised env llm payload user e :
  md_user_id (rp_metadata payload) = u_id user ->
  outcome (process_request_try env llm
             (logger_bind (uuid4 env) (u_id user) (md_session_id (rp_metadata payload)))
             payload) = Raised e ->
  outcome (process_request env llm payload user) =
    outcome (process_request_except
               (logger_bind (uuid4 env) (u_id user) (md_session_id (rp_metadata payload))) e).
Proof.
  intros Heq Hbody. rewrite (process_request_authorized _ _ _ _ Heq).
  unfold log_info. rewrite outcome_log_then.
  apply try_except_outcome_raised. exact Hbody.
Qed.

Lemma legacy_process_request_body_raised env llm dispatch req user e :
  pri_user_id req = u_id user ->
  outcome (legacy_process_request_try llm dispatch
             (logger_bind (uuid4 env) (u_id user) (pri_session_id req))
             (uuid4 env) req user) = Raised e ->
  outcome (legacy_process_request env llm dispatch req user) =
    outcome (legacy_process_request_except
               (logger_bind (uuid4 env) (u_id user) (pri_session_id req)) e).
Proof.
  intros Heq Hbody. rewrite (legacy_process_request_authorized _ _ _ _ _ Heq).
  unfold log_info. rewrite outcome_log_then.
  apply try_except_outcome_raised. exact Hbody.
Qed.

(** A failing completion call makes the body raise: the client's exception,
    or the 400 of the missing-both branch when the client is never reached. *)
Lemma process_request_try_llm_raised env llm log payload e :
  (forall messages,
     llm_process_request llm messages (md_mode (rp_metadata payload)) (rp_model payload)
       (rp_temperature payload) (rp_max_tokens payload) = Raised e) ->
  is_ValueError e = false ->
  exists e', outcome (process_request_try env llm log payload) = Raised e'
             /\ is_ValueError e' = false.
Proof.
  intros Hllm Hve. unfold process_request_try, effective_messages.
  destruct (truthy_list (rp_messages payload)); simpl.
  - rewrite Hllm. simpl. eauto.
  - destruct (truthy_str (rp_input payload)); simpl.
    + rewrite Hllm. simpl. eauto.
    + eexists. split; reflexivity.
Qed.

Lemma legacy_try_llm_raised llm dispatch log request_id req user e :
  get_intent_and_entities llm (pri_text req) (pri_session_id req) = Raised e ->
  outcome (legacy_process_request_try llm dispatch log request_id req user) = Raised e.
Proof.
  intros Hllm. unfold legacy_process_request_try. simpl. rewrite Hllm. reflexivity.
Qed.

Lemma legacy_try_dispatch_raised llm dispatch log request_id req user r intent entities e :
  get_intent_and_entities llm (pri_text req) (pri_session_id req) = Returned r ->
  r !! "intent" = Some intent ->
  r !! "entities" = Some entities ->
  outcome (dispatch intent entities (u_id user)) = Raised e ->
  outcome (legacy_process_request_try llm dispatch log request_id req user) = Raised e.
Proof.
  intros Hllm Hi He Hd. unfold legacy_process_request_try, getitem.
  cbn [bind emit lift]. rewrite Hllm. cbn [bind]. rewrite Hi. cbn [bind ret].
  rewrite He. cbn [bind ret log_info log_at emit].
  destruct (dispatch intent entities (u_id user)) as [t [d|e']]; simpl in *;
    [discriminate | congruence].
Qed.

(** C4: whatever exception other than a [ValueError] leaves the body of
    the [try] (a failure of the LLM client, of the dispatcher, a missing
    key), both endpoints raise a 500 whose detail is a fixed string:
    nothing of the exception reaches the caller, and two runs that differ
    only in the failure end in the same error. *)
Theorem internal_failures_are_opaque :
  (forall env llm payload user e,
     md_user_id (rp_metadata payload) = u_id user ->
     outcome (process_request_try env llm
                (logger_bind (uuid4 env) (u_id user) (md_session_id (rp_metadata payload)))
                payload) = Raised e ->
     is_ValueError e = false ->
     outcome (process_request env llm payload user) =
       Raised (HTTPException HTTP_500_INTERNAL_SERVER_ERROR
                 "An error occurred while processing the request"))
  /\ (forall env llm dispatch req user e,
        pri_user_id req = u_id user ->
        outcome (legacy_process_request_try llm dispatch
                   (logger_bind (uuid4 env) (u_id user) (pri_session_id req))
                   (uuid4 env) req user) = Raised e ->
        is_ValueError e = false ->
        outcome (legacy_process_request env llm dispatch req user) =
          Raised (HTTPException HTTP_500_INTERNAL_SERVER_ERROR "Internal server error"))
  /\ (forall env llm payload user e,
        md_user_id (rp_metadata payload) = u_id user ->
        (forall messages,
           llm_process_request llm messages (md_mode (rp_metadata payload))
             (rp_model payload) (rp_temperature payload) (rp_max_tokens payload) = Raised e) ->
        is_ValueError e = false ->
        outcome (process_request env llm payload user) =
          Raised (HTTPException HTTP_500_INTERNAL_SERVER_ERROR
                    "An error occurred while processing the request"))
  /\ (forall env llm dispatch req user e,
        pri_user_id req = u_id user ->
        get_intent_and_entities llm (pri_text req) (pri_session_id req) = Raised e ->
        is_ValueError e = false ->
        outcome (legacy_process_request env llm dispatch req user) =
          Raised (HTTPException HTTP_500_INTERNAL_SERVER_ERROR "Internal server error"))
  /\ (forall env llm dispatch req user r intent entities e,
        pri_user_id req = u_id user ->
        get_intent_and_entities llm (pri_text req) (pri_session_id req) = Returned r ->
        r !! "intent" = Some intent ->
        r !! "entities" = Some entities ->
        outcome (dispatch intent entities (u_id user)) = Raised e ->
        is_ValueError e = false ->
        outcome (legacy_process_request env llm dispatch req user) =
          Raised (HTTPException HTTP_500_INTERNAL_SERVER_ERROR "Internal server error")).
Proof.
  assert (Hmodern : forall env llm payload user e,
            md_user_id (rp_metadata payload) = u_id user ->
            outcome (process_request_try env llm
                       (logger_bind (uuid4 env) (u_id user)
                          (md_session_id (rp_metadata payload)))
                       payload) = Raised e ->
            is_ValueError e = false ->
            outcome (process_request env llm payload user) =
              Raised (HTTPException HTTP_500_INTERNAL_SERVER_ERROR
                        "An error occurred while processing the request")).
  { intros env llm payload user e Heq Hbody Hve.
    rewrite (process_request_body_raised _ _ _ _ _ Heq Hbody).
    rewrite process_request_except_outcome, Hve. reflexivity. }
  assert (Hlegacy : forall env llm dispatch req user e,
            pri_user_id req = u_id user ->
            outcome (legacy_process_request_try llm dispatch
                       (logger_bind (uuid4 env) (u_id user) (pri_session_id req))
                       (uuid4 env) req user) = Raised e ->
            is_ValueError e = false ->
            outcome (legacy_process_request env llm dispatch req user) =
              Raised (HTTPException HTTP_500_INTERNAL_SERVER_ERROR "Internal server error")).
  { intros env llm dispatch req user e Heq Hbody Hve.
    rewrite (legacy_process_request_body_raised _ _ _ _ _ _ Heq Hbody).
    rewrite legacy_process_request_except_outcome, Hve. reflexivity. }
  split; [exact Hmodern |]. split; [exact Hlegacy |]. split; [| split].
  - intros env llm payload user e Heq Hllm Hve.
    destruct (process_request_try_llm_raised env llm
                (logger_bind (uuid4 env) (u_id user) (md_session_id (rp_metadata payload)))
                payload e Hllm Hve) as [e' [Hbody Hve']].
    exact (Hmodern _ _ _ _ _ Heq Hbody Hve').
  - intros env llm dispatch req user e Heq Hllm Hve.
    apply (Hlegacy _ _ _ _ _ e Heq); [| exact Hve].
    apply legacy_try_llm_raised. exact Hllm.
  - intros env llm dispatch req user r intent entities e Heq Hllm Hi He Hd Hve.
    apply (Hlegacy _ _ _ _ _ e Heq); [| exact Hve].
    eapply legacy_try_dispatch_raised; eassumption.
Qed.

Lemma internal_failures_are_opaque_witness :
  outcome (process_request env0 llm_down payload_hello alice) =
    outcome (process_request env0 llm_timeout payload_hello alice)
  /\ outcome (legacy_process_request env0 llm_down dispatch_bare legacy_req alice) =
       outcome (legacy_process_request env0 llm_timeout dispatch_bare legacy_req alice)
  /\ outcome (legacy_process_request env0 llm_up dispatch_broken legacy_req alice) =
       Raised (HTTPException HTTP_500_INTERNAL_SERVER_ERROR "Internal server error").
Proof.
  destruct internal_failures_are_opaque as (_ & _ & Hmodern & Hlegacy & Hdispatch).
  split; [| split].
  - rewrite (Hmodern env0 llm_down payload_hello alice
               (OtherException "ConnectionError" "10.0.0.7:8443 refused"));
      [| reflexivity | reflexivity | reflexivity].
    rewrite (Hmodern env0 llm_timeout payload_hello alice
               (OtherException "TimeoutError" "api key sk-123 timed out"));
      reflexivity.
  - rewrite (Hlegacy env0 llm_down dispatch_bare legacy_req alice
               (OtherException "ConnectionError" "10.0.0.7:8443 refused"));
      [| reflexivity | reflexivity | reflexivity].
    rewrite (Hlegacy env0 llm_timeout dispatch_bare legacy_req alice
               (OtherException "TimeoutError" "api key sk-123 timed out"));
      reflexivity.
  - apply (Hdispatch env0 llm_up dispatch_broken legacy_req alice
             (<["intent" := PyStr "create_order"]>
                (<["entities" := PyOther "dict" "{'qty': 2}"]> ∅))
             (PyStr "create_order") (PyOther "dict" "{'qty': 2}")
             (OtherException "RuntimeError" "mongodb://10.0.0.9 write failed"));
      reflexivity.
Defined.

(** ** The legacy endpoint: the response and the unknown intent *)

(** When both collaborators return, so does the endpoint, with the output
    of lines 186-195. *)
Lemma legacy_process_request_returns env llm dispatch req user r intent entities d :
  pri_user_id req = u_id user ->
  get_intent_and_entities llm (pri_text req) (pri_session_id req) = Returned r ->
  r !! "intent" = Some intent ->
  r !! "entities" = Some entities ->
  outcome (dispatch intent entities (u_id user)) = Returned d ->
  outcome (legacy_process_request env llm dispatch req user) =
    Returned (mkProcessRequestOutput
                (default (PyStr "success") (d !! "status"))
                (default (PyStr (default_message intent)) (d !! "message"))
                intent d (uuid4 env)).
Proof.
  intros Heq Hllm Hi He Hd.
  rewrite (legacy_process_request_authorized _ _ _ _ _ Heq).
  unfold log_info. rewrite outcome_log_then.
  apply try_except_outcome_returned.
  unfold legacy_process_request_try, getitem.
  cbn [bind emit lift]. rewrite Hllm. cbn [bind]. rewrite Hi. cbn [bind ret].
  rewrite He. cbn [bind ret log_info log_at emit].
  destruct (dispatch intent entities (u_id user)) as [t [d'|e']]; simpl in *;
    [| discriminate].
  injection Hd as ->. reflexivity.
Qed.

(** Conversely, the endpoint returns only when both collaborators did. *)
Lemma legacy_process_request_returned_inv env llm dispatch req user out :
  outcome (legacy_process_request env llm dispatch req user) = Returned out ->
  exists r intent entities d,
    get_intent_and_entities llm (pri_text req) (pri_session_id req) = Returned r
    /\ r !! "intent" = Some intent
    /\ r !! "entities" = Some entities
    /\ outcome (dispatch intent entities (u_id user)) = Returned d
    /\ out = mkProcessRequestOutput
               (default (PyStr "success") (d !! "status"))
               (default (PyStr (default_message intent)) (d !! "message"))
               intent d (uuid4 env).
Proof.
  unfold legacy_process_request.
  destruct (String.eqb (pri_user_id req) (u_id user)) eqn:Heq;
    cbn [negb]; [| simpl; discriminate].
  unfold log_info. rewrite outcome_log_then. intros Hout.
  apply try_except_returned_inv in Hout.
  2:{ intros e. rewrite legacy_process_request_except_outcome.
      destruct (is_ValueError e); eauto. }
  revert Hout. unfold legacy_process_request_try, getitem.
  cbn [bind emit lift].
  destruct (get_intent_and_entities llm (pri_text req) (pri_session_id req))
    as [r|e] eqn:Hllm; cbn [bind]; [| simpl; discriminate].
  destruct (r !! "intent") as [intent|] eqn:Hi; cbn [bind ret raise];
    [| simpl; discriminate].
  destruct (r !! "entities") as [entities|] eqn:He; cbn [bind ret raise];
    [| simpl; discriminate].
  cbn [log_info log_at emit bind].
  destruct (dispatch intent entities (u_id user)) as [t [d|e]] eqn:Hd;
    simpl; [| discriminate].
  intros Hout. injection Hout as <-.
  exists r, intent, entities, d. rewrite Hd. repeat split; reflexivity || assumption.
Qed.

(** C5: the output of a successful [legacy_process_request].  [status] and
    [message] are the dispatcher result's own entries when it has them, and
    otherwise "success" and a sentence that holds the intent; [intent] is
    the one the LLM client resolved, [data] the whole dispatcher result and
    [request_id] the id drawn for the request. *)
Theorem legacy_process_request_output env llm dispatch req user out :
  outcome (legacy_process_request env llm dispatch req user) = Returned out ->
  exists r intent entities d,
    get_intent_and_entities llm (pri_text req) (pri_session_id req) = Returned r
    /\ r !! "intent" = Some intent
    /\ r !! "entities" = Some entities
    /\ outcome (dispatch intent entities (u_id user)) = Returned d
    /\ (forall v, d !! "status" = Some v -> pro_status out = v)
    /\ (d !! "status" = None -> pro_status out = PyStr "success")
    /\ (forall v, d !! "message" = Some v -> pro_message out = v)
    /\ (d !! "message" = None ->
        pro_message out =
          PyStr ("Action for intent '" +:+ py_str intent +:+ "' completed."))
    /\ pro_intent out = intent
    /\ pro_data out = d
    /\ pro_request_id out = uuid4 env.
Proof.
  intros Hout.
  destruct (legacy_process_request_returned_inv _ _ _ _ _ _ Hout)
    as (r & intent & entities & d & Hllm & Hi & He & Hd & ->).
  exists r, intent, entities, d. simpl.
  repeat split; try assumption.
  - intros v ->. reflexivity.
  - intros ->. reflexivity.
  - intros v ->. reflexivity.
  - intros ->. reflexivity.
Qed.

Lemma legacy_process_request_output_witness :
  outcome (legacy_process_request env0 llm_up dispatch_bare legacy_req alice) =
    Returned (mkProcessRequestOutput (PyStr "success")
                (PyStr "Action for intent 'create_order' completed.")
                (PyStr "create_order")
                (<["order_id" := PyOther "int" "42"]> ∅)
                "3f2b8c1e-7a4d-4e0b-9c55-0d6a1f2e3b4c")
  /\ exists r intent entities d,
       get_intent_and_entities llm_up (pri_text legacy_req) (pri_session_id legacy_req) =
         Returned r
       /\ r !! "intent" = Some intent
       /\ r !! "entities" = Some entities
       /\ outcome (dispatch_bare intent entities (u_id alice)) = Returned d
       /\ pro_data (mkProcessRequestOutput (PyStr "success")
                      (PyStr "Action for intent 'create_order' completed.")
                      (PyStr "create_order")
                      (<["order_id" := PyOther "int" "42"]> ∅)
                      "3f2b8c1e-7a4d-4e0b-9c55-0d6a1f2e3b4c") = d.
Proof.
  assert (Hrun : outcome (legacy_process_request env0 llm_up dispatch_bare legacy_req alice) =
            Returned (mkProcessRequestOutput (PyStr "success")
                        (PyStr "Action for intent 'create_order' completed.")
                        (PyStr "create_order")
                        (<["order_id" := PyOther "int" "42"]> ∅)
                        "3f2b8c1e-7a4d-4e0b-9c55-0d6a1f2e3b4c")) by reflexivity.
  split; [exact Hrun |].
  destruct (legacy_process_request_output env0 llm_up dispatch_bare legacy_req alice _ Hrun)
    as (r & intent & entities & d & H1 & H2 & H3 & H4 & _ & _ & _ & _ & _ & H5 & _).
  exists r, intent, entities, d. repeat split; assumption.
Defined.

Lemma handler_calls_app t1 t2 :
  handler_calls (t1 ++ t2) = handler_calls t1 ++ handler_calls t2.
Proof. unfold handler_calls. apply List.filter_app. Qed.

(** The dispatcher on an intent without a handler: the unroutable-intent
    error, and an empty trace. *)
Lemma dispatch_intent_unroutable registry intent entities user_id :
  (forall name, intent = PyStr name -> registry !! name = None) ->
  Dispatcher.dispatch_intent registry intent entities user_id =
    raise (Dispatcher.UnroutableIntent intent).
Proof.
  intros Hnone. unfold Dispatcher.dispatch_intent.
  destruct intent as [| b | name | cls r]; try reflexivity.
  specialize (Hnone name eq_refl). unfold Dispatcher.Handler in *.
  rewrite Hnone. reflexivity.
Qed.

(** C6: [legacy_process_request] over the dispatcher with a handler
    registry.  When the resolved intent names no registered handler, the
    dispatcher raises the unroutable-intent error, the endpoint answers
    with a 400 client error carrying it (never the 500), and the trace
    holds no handler run. *)
Theorem legacy_process_request_unroutable_intent
    env llm (registry : gmap string Dispatcher.Handler) req user r intent entities :
  pri_user_id req = u_id user ->
  get_intent_and_entities llm (pri_text req) (pri_session_id req) = Returned r ->
  r !! "intent" = Some intent ->
  r !! "entities" = Some entities ->
  (forall name, intent = PyStr name -> registry !! name = None) ->
  outcome (Dispatcher.dispatch_intent registry intent entities (u_id user)) =
    Raised (Dispatcher.UnroutableIntent intent)
  /\ outcome (legacy_process_request env llm (Dispatcher.dispatch_intent registry) req user) =
       Raised (HTTPException HTTP_400_BAD_REQUEST
                 (exc_str (Dispatcher.UnroutableIntent intent)))
  /\ (forall detail,
        outcome (legacy_process_request env llm (Dispatcher.dispatch_intent registry) req user) <>
          Raised (HTTPException HTTP_500_INTERNAL_SERVER_ERROR detail))
  /\ handler_calls
       (trace (legacy_process_request env llm (Dispatcher.dispatch_intent registry) req user)) = [].
Proof.
  intros Heq Hllm Hi He Hnone.
  pose proof (dispatch_intent_unroutable registry intent entities (u_id user) Hnone) as Hd.
  assert (Hout :
    outcome (legacy_process_request env llm (Dispatcher.dispatch_intent registry) req user) =
      Raised (HTTPException HTTP_400_BAD_REQUEST
                (exc_str (Dispatcher.UnroutableIntent intent)))).
  { rewrite (legacy_process_request_body_raised _ _ _ _ _
               (Dispatcher.UnroutableIntent intent) Heq).
    - rewrite legacy_process_request_except_outcome. reflexivity.
    - eapply legacy_try_dispatch_raised; try eassumption.
      rewrite Hd. reflexivity. }
  split; [rewrite Hd; reflexivity |].
  split; [exact Hout |].
  split; [intros detail; rewrite Hout; discriminate |].
  rewrite (legacy_process_request_authorized _ _ _ _ _ Heq).
  unfold legacy_process_request_try, getitem.
  cbn [bind emit lift log_info log_at]. rewrite Hllm. cbn [bind]. rewrite Hi.
  cbn [bind ret]. rewrite He. cbn [bind ret emit]. rewrite Hd.
  reflexivity.
Qed.

Lemma legacy_process_request_unroutable_intent_witness :
  outcome (legacy_process_request env0 llm_up
             (Dispatcher.dispatch_intent sample_registry) legacy_req alice) =
    Raised (HTTPException HTTP_400_BAD_REQUEST "create_order")
  /\ handler_calls
       (trace (legacy_process_request env0 llm_up
                 (Dispatcher.dispatch_intent sample_registry) legacy_req alice)) = [].
Proof.
  destruct (legacy_process_request_unroutable_intent env0 llm_up sample_registry
              legacy_req alice
              (<["intent" := PyStr "create_order"]>
                 (<["entities" := PyOther "dict" "{'qty': 2}"]> ∅))
              (PyStr "create_order") (PyOther "dict" "{'qty': 2}"))
    as (_ & Hout & _ & Hcalls); try reflexivity.
  - intros name Hname. injection Hname as <-. reflexivity.
  - split; [exact Hout | exact Hcalls].
Defined.

(** A registered intent does run its handler. *)
Example legacy_process_request_routable :
  handler_calls
    (trace (legacy_process_request env0
              (mkLLMClient (fun _ _ _ _ _ => Returned answer)
                 (fun _ _ => Returned (<["intent" := PyStr "cancel_order"]>
                                        (<["entities" := PyNone]> ∅))))
              (Dispatcher.dispatch_intent sample_registry) legacy_req alice)) =
    [EvHandler "cancel_order" PyNone "alice"].
Proof. reflexivity. Qed.

(** ** The health check *)

Lemma contains_app c (a b : string) :
  contains c (a +:+ b) = contains c a || contains c b.
Proof.
  induction a as [|x a IH]; simpl; [reflexivity |].
  rewrite <- orb_assoc. f_equal. exact IH.
Qed.

Lemma brace_free_app (a b : string) :
  brace_free (a +:+ b) = brace_free a && brace_free b.
Proof.
  unfold brace_free. rewrite !contains_app.
  destruct (contains "{" a), (contains "{" b), (contains "}" a), (contains "}" b);
    reflexivity.
Qed.

Lemma append_empty_r (s : string) : s +:+ "" = s.
Proof.
  induction s as [|c s IH]; [reflexivity |].
  change (String c (s +:+ "") = String c s). now rewrite IH.
Qed.

Lemma snoc_append (a : string) c (b : string) : snoc a c +:+ b = a +:+ String c b.
Proof.
  unfold snoc. induction a as [|x a IH]; [reflexivity |].
  change (String x ((a +:+ String c "") +:+ b) = String x (a +:+ String c b)).
  now rewrite IH.
Qed.

(** A string without braces is a format string without fields: formatting
    returns it as it is. *)
Lemma scan_brace_free render kwargs (s out : string) :
  brace_free s = true -> scan render kwargs InLiteral out s = Returned (out +:+ s).
Proof.
  revert out. induction s as [|c s IH]; intros out Hs.
  - cbn [scan scan_end]. rewrite append_empty_r. reflexivity.
  - assert (Hc : Ascii.eqb c "{" = false /\ Ascii.eqb c "}" = false
                 /\ brace_free s = true).
    { unfold brace_free in *. cbn [contains] in Hs.
      rewrite (Ascii.eqb_sym c "{"), (Ascii.eqb_sym c "}").
      destruct (Ascii.eqb "{" c), (Ascii.eqb "}" c); cbn [orb negb andb] in Hs;
        rewrite ?andb_false_r in Hs; try discriminate Hs.
      repeat split; try reflexivity. exact Hs. }
    destruct Hc as (Ho & Hc & Hs').
    cbn [scan scan_step]. rewrite Ho, Hc.
    rewrite (IH _ Hs'), snoc_append. reflexivity.
Qed.

Lemma format_exc_info_false_brace_free env (message : string) :
  brace_free message = true -> format_exc_info_false env message = Returned message.
Proof.
  intros H. unfold format_exc_info_false, str_format.
  rewrite (scan_brace_free _ _ _ _ H). reflexivity.
Qed.

(** A probe failure whose text has no braces is logged without incident. *)
Lemma logging_failure_brace_free env prefix ping :
  brace_free prefix = true ->
  (forall e, ping = Raised e -> brace_free (exc_str e) = true) ->
  logging_failure env (fun e => prefix +:+ exc_str e) ping = None.
Proof.
  intros Hp He. unfold logging_failure. destruct ping as [u|e]; [reflexivity |].
  rewrite format_exc_info_false_brace_free; [reflexivity |].
  rewrite brace_free_app, Hp, (He e eq_refl). reflexivity.
Qed.

Ltac status_run :=
  unfold get_application_status, check_components, check_mongodb, check_redis,
    log_error_exc_info_false, logging_failure;
  cbn -[format_exc_info_false mongodb_failed redis_failed str_or String.append].

(** What the checks leave behind, by cases on the two probes and on the
    logging of their failures.  The result does not depend on the logger. *)
Lemma check_components_outcome env log db_ping redis_ping :
  outcome (check_components env log db_ping redis_ping) =
    match logging_failure env mongodb_failed db_ping with
    | Some x => Raised x
    | None =>
        match logging_failure env redis_failed redis_ping with
        | Some x => Raised x
        | None =>
            Returned (mkHealthState
                        [("database_mongodb", probe_status db_ping);
                         ("cache_broker_redis", probe_status redis_ping);
                         ("celery_workers", "check_not_implemented")]
                        (returned db_ping && returned redis_ping))
        end
    end.
Proof.
  destruct db_ping as [[]|e1], redis_ping as [[]|e2]; status_run;
    repeat match goal with
           | |- context [format_exc_info_false env ?m] =>
               destruct (format_exc_info_false env m); status_run
           end; reflexivity.
Qed.

Lemma get_application_status_by_cases env db_ping redis_ping :
  outcome (get_application_status env db_ping redis_ping) =
    match logging_failure env mongodb_failed db_ping with
    | Some x => Raised x
    | None =>
        match logging_failure env redis_failed redis_ping with
        | Some x => Raised x
        | None =>
            if returned db_ping && returned redis_ping
            then Returned (mkStatusResponse "ok" "All critical components operational.")
            else Raised (HTTPException HTTP_503_SERVICE_UNAVAILABLE
                           (status_message
                              (mkHealthState
                                 [("database_mongodb", probe_status db_ping);
                                  ("cache_broker_redis", probe_status redis_ping);
                                  ("celery_workers", "check_not_implemented")]
                                 (returned db_ping && returned redis_ping))))
        end
    end.
Proof.
  destruct db_ping as [[]|e1], redis_ping as [[]|e2]; status_run;
    repeat match goal with
           | |- context [format_exc_info_false env ?m] =>
               destruct (format_exc_info_false env m); status_run
           end; reflexivity.
Qed.

(** C3: a failing datastore probe whose exception text holds braces, with
    the cache probe succeeding.  [log.error(..., exc_info=False)] makes
    loguru format the message, the braces are read as a replacement field
    and the [KeyError] of that formatting leaves the endpoint from inside
    the [except] block: no status is recorded, the cache is never probed
    and no 503 is raised. *)
Theorem health_check_raises_on_braces :
  outcome (get_application_status status_env0 ping_denied ping_ok) = Raised (KeyError "'ok'")
  /\ (forall detail,
        outcome (get_application_status status_env0 ping_denied ping_ok) <>
          Raised (HTTPException HTTP_503_SERVICE_UNAVAILABLE detail))
  /\ trace (get_application_status status_env0 ping_denied ping_ok) =
       [EvLog [("trace_id", "status_01234567"); ("api_endpoint", "/status GET")] INFO
          "Performing application status check..." [];
        EvPingDatabase].
Proof.
  split; [vm_compute; reflexivity |]. split; [| vm_compute; reflexivity].
  intros detail H. vm_compute in H. discriminate H.
Qed.

(** C8 as the specification words it fails on any health check: the
    worker-pool entry is not "not_checked", and not one of the four values
    listed. *)
Lemma worker_pool_marker_counterexample :
  exists st,
    outcome (check_components status_env0 [] ping_ok ping_ok) = Returned st
    /\ dict_get "celery_workers" (component_statuses st) = Some "check_not_implemented"
    /\ dict_get "celery_workers" (component_statuses st) <> Some "not_checked"
    /\ ~ Forall (fun kv => In (snd kv) ["ok"; "error"; "unavailable"; "not_checked"])
          (component_statuses st).
Proof.
  eexists. split; [reflexivity |]. simpl.
  split; [reflexivity |]. split; [discriminate |].
  intros H. inversion H as [| ? ? _ H1]; subst.
  inversion H1 as [| ? ? _ H2]; subst.
  inversion H2 as [| ? ? Hin _]; subst.
  simpl in Hin. destruct Hin as [Hin | [Hin | [Hin | [Hin | []]]]]; discriminate Hin.
Qed.

(** C8, amended: in every health check whose component checks run to
    their end, the worker pool is recorded under the marker
    "check_not_implemented", which is none of "ok", "error" and
    "unavailable"; every recorded value is one of these four; and the
    verdict is that of the two probes alone, whatever is recorded for the
    worker pool. *)
Theorem health_check_components env log db_ping redis_ping st :
  outcome (check_components env log db_ping redis_ping) = Returned st ->
  dict_get "celery_workers" (component_statuses st) = Some "check_not_implemented"
  /\ ~ In "check_not_implemented" ["ok"; "error"; "unavailable"]
  /\ Forall (fun kv => In (snd kv) ["ok"; "error"; "unavailable"; "check_not_implemented"])
       (component_statuses st)
  /\ overall_ok st = returned db_ping && returned redis_ping
  /\ (forall v, final_status (set_component "celery_workers" v st) = final_status st)
  /\ returned (outcome (get_application_status env db_ping redis_ping)) =
       returned db_ping && returned redis_ping.
Proof.
  rewrite check_components_outcome, get_application_status_by_cases.
  destruct (logging_failure env mongodb_failed db_ping); [discriminate |].
  destruct (logging_failure env redis_failed redis_ping); [discriminate |].
  intros H. injection H as <-.
  split; [reflexivity |].
  split; [intros [H | [H | [H | []]]]; discriminate H |].
  split.
  { unfold probe_status.
    destruct (returned db_ping), (returned redis_ping); simpl;
      (constructor; [simpl; tauto |]); (constructor; [simpl; tauto |]);
      (constructor; [simpl; tauto |]); constructor. }
  split; [reflexivity |].
  split; [intros v; reflexivity |].
  destruct (returned db_ping && returned redis_ping); reflexivity.
Qed.

Lemma health_check_components_witness :
  dict_get "celery_workers"
    (component_statuses
       (mkHealthState
          [("database_mongodb", "error"); ("cache_broker_redis", "ok");
           ("celery_workers", "check_not_implemented")] false)) =
    Some "check_not_implemented"
  /\ overall_ok
       (mkHealthState
          [("database_mongodb", "error"); ("cache_broker_redis", "ok");
           ("celery_workers", "check_not_implemented")] false) =
       returned ping_down && returned ping_ok.
Proof.
  assert (Hrun : outcome (check_components status_env0 [] ping_down ping_ok) =
                 Returned (mkHealthState
                             [("database_mongodb", "error"); ("cache_broker_redis", "ok");
                              ("celery_workers", "check_not_implemented")] false))
    by (vm_compute; reflexivity).
  destruct (health_check_components status_env0 [] ping_down ping_ok _ Hrun)
    as (H1 & _ & _ & H2 & _).
  split; [exact H1 | exact H2].
Defined.

(** ** Further properties of [legacy_process_request] and [process_request] *)

Lemma dispatch_calls_app t1 t2 :
  dispatch_calls (t1 ++ t2) = dispatch_calls t1 ++ dispatch_calls t2.
Proof. unfold dispatch_calls. apply List.filter_app. Qed.

(** X1: the authorization check of the legacy endpoint (lines 156-162).
    With differing user ids it raises the 403 and its whole trace is the
    two log lines: neither the LLM client nor the dispatcher is reached. *)
Theorem legacy_process_request_user_id_mismatch env llm dispatch req user :
  pri_user_id req <> u_id user ->
  legacy_process_request env llm dispatch req user =
    ([EvLog (logger_bind (uuid4 env) (u_id user) (pri_session_id req)) INFO
        "Received legacy process_request: '{}'" [LStr (pri_text req)];
      EvLog (logger_bind (uuid4 env) (u_id user) (pri_session_id req)) WARNING
        "User ID mismatch: payload={}, token={}"
        [LStr (pri_user_id req); LStr (u_id user)]],
     Raised (HTTPException HTTP_403_FORBIDDEN
               "User ID in payload does not match authenticated user")).
Proof.
  intros Hne. apply String.eqb_neq in Hne.
  unfold legacy_process_request. rewrite Hne. reflexivity.
Qed.

Lemma legacy_process_request_user_id_mismatch_witness :
  outcome (legacy_process_request env0 llm_up dispatch_bare legacy_req_mallory alice) =
    Raised (HTTPException HTTP_403_FORBIDDEN
              "User ID in payload does not match authenticated user")
  /\ llm_calls (trace (legacy_process_request env0 llm_up dispatch_bare
                         legacy_req_mallory alice)) = []
  /\ dispatch_calls (trace (legacy_process_request env0 llm_up dispatch_bare
                              legacy_req_mallory alice)) = [].
Proof.
  rewrite (legacy_process_request_user_id_mismatch env0 llm_up dispatch_bare
             legacy_req_mallory alice); [| simpl; discriminate].
  repeat split.
Defined.

(** X2: a [ValueError] of the completion call (lines 106-111).  When the
    request resolves to messages and the LLM client raises a [ValueError],
    [process_request] raises a 400 whose detail is the text of that
    exception: for this class the exception text does reach the caller. *)
Theorem process_request_value_error env llm payload user cls msg :
  md_user_id (rp_metadata payload) = u_id user ->
  truthy_list (rp_messages payload) = true \/ truthy_str (rp_input payload) = true ->
  (forall messages,
     llm_process_request llm messages (md_mode (rp_metadata payload)) (rp_model payload)
       (rp_temperature payload) (rp_max_tokens payload) = Raised (ValueError cls msg)) ->
  outcome (process_request env llm payload user) =
    Raised (HTTPException HTTP_400_BAD_REQUEST msg).
Proof.
  intros Heq Hres Hllm.
  rewrite (process_request_body_raised _ _ _ _ (ValueError cls msg) Heq).
  - rewrite process_request_except_outcome. reflexivity.
  - unfold process_request_try, effective_messages.
    destruct (truthy_list (rp_messages payload)); simpl.
    + rewrite Hllm. reflexivity.
    + destruct Hres as [Hres | Hres]; [discriminate |].
      rewrite Hres. simpl. rewrite Hllm. reflexivity.
Qed.

Lemma process_request_value_error_witness :
  outcome (process_request env0 llm_invalid payload_hello alice) =
    Raised (HTTPException HTTP_400_BAD_REQUEST "unsupported mode: chat").
Proof.
  apply (process_request_value_error env0 llm_invalid payload_hello alice "ValueError").
  - reflexivity.
  - right. reflexivity.
  - intros messages. reflexivity.
Defined.

(** X3: a [ValueError] in the legacy flow (lines 197-202), raised by the
    intent extraction or by the dispatcher, becomes a 400 whose detail is
    the text of the exception. *)
Theorem legacy_process_request_value_error :
  (forall env llm dispatch req user cls msg,
     pri_user_id req = u_id user ->
     get_intent_and_entities llm (pri_text req) (pri_session_id req) =
       Raised (ValueError cls msg) ->
     outcome (legacy_process_request env llm dispatch req user) =
       Raised (HTTPException HTTP_400_BAD_REQUEST msg))
  /\ (forall env llm dispatch req user r intent entities cls msg,
        pri_user_id req = u_id user ->
        get_intent_and_entities llm (pri_text req) (pri_session_id req) = Returned r ->
        r !! "intent" = Some intent ->
        r !! "entities" = Some entities ->
        outcome (dispatch intent entities (u_id user)) = Raised (ValueError cls msg) ->
        outcome (legacy_process_request env llm dispatch req user) =
          Raised (HTTPException HTTP_400_BAD_REQUEST msg)).
Proof.
  split.
  - intros env llm dispatch req user cls msg Heq Hllm.
    rewrite (legacy_process_request_body_raised _ _ _ _ _ (ValueError cls msg) Heq).
    + rewrite legacy_process_request_except_outcome. reflexivity.
    + apply legacy_try_llm_raised. exact Hllm.
  - intros env llm dispatch req user r intent entities cls msg Heq Hllm Hi He Hd.
    rewrite (legacy_process_request_body_raised _ _ _ _ _ (ValueError cls msg) Heq).
    + rewrite legacy_process_request_except_outcome. reflexivity.
    + eapply legacy_try_dispatch_raised; eassumption.
Qed.

Lemma legacy_process_request_value_error_witness :
  outcome (legacy_process_request env0 llm_invalid dispatch_bare legacy_req alice) =
    Raised (HTTPException HTTP_400_BAD_REQUEST "text must not be empty")
  /\ outcome (legacy_process_request env0 llm_up dispatch_invalid legacy_req alice) =
       Raised (HTTPException HTTP_400_BAD_REQUEST "quantity must be positive").
Proof.
  destruct legacy_process_request_value_error as [Hllm Hdispatch]. split.
  - apply (Hllm env0 llm_invalid dispatch_bare legacy_req alice "ValueError");
      reflexivity.
  - apply (Hdispatch env0 llm_up dispatch_invalid legacy_req alice
             (<["intent" := PyStr "create_order"]>
                (<["entities" := PyOther "dict" "{'qty': 2}"]> ∅))
             (PyStr "create_order") (PyOther "dict" "{'qty': 2}") "ValueError");
      reflexivity.
Defined.

(** X4: a completion dict without the [messages] key (line 98).  The
    [KeyError] of the subscript is caught by the catch-all clause: the
    caller gets the generic 500, and when the timestamp was absent the
    clock had already been read. *)
Theorem process_request_response_without_messages env llm payload user r :
  md_user_id (rp_metadata payload) = u_id user ->
  truthy_list (rp_messages payload) = true \/ truthy_str (rp_input payload) = true ->
  (forall messages,
     llm_process_request llm messages (md_mode (rp_metadata payload)) (rp_model payload)
       (rp_temperature payload) (rp_max_tokens payload) = Returned r) ->
  cd_messages r = None ->
  outcome (process_request env llm payload user) =
    Raised (HTTPException HTTP_500_INTERNAL_SERVER_ERROR
              "An error occurred while processing the request")
  /\ (truthy_str (md_timestamp (rp_metadata payload)) = false ->
      In EvUtcNow (trace (process_request env llm payload user))).
Proof.
  intros Heq Hres Hllm Hnone.
  rewrite (process_request_authorized _ _ _ _ Heq).
  unfold process_request_try, process_request_except, effective_messages.
  destruct (truthy_list (rp_messages payload)); simpl.
  - rewrite Hllm. simpl. rewrite Hnone.
    destruct (truthy_str (md_timestamp (rp_metadata payload))); simpl;
      (split; [reflexivity | intros H; try discriminate H; simpl; tauto]).
  - destruct Hres as [Hres | Hres]; [discriminate |].
    rewrite Hres. simpl. rewrite Hllm. simpl. rewrite Hnone.
    destruct (truthy_str (md_timestamp (rp_metadata payload))); simpl;
      (split; [reflexivity | intros H; try discriminate H; simpl; tauto]).
Qed.

Lemma process_request_response_without_messages_witness :
  outcome (process_request env0 llm_incomplete payload_hello alice) =
    Raised (HTTPException HTTP_500_INTERNAL_SERVER_ERROR
              "An error occurred while processing the request")
  /\ (truthy_str (md_timestamp (rp_metadata payload_hello)) = false ->
      In EvUtcNow (trace (process_request env0 llm_incomplete payload_hello alice))).
Proof.
  apply (process_request_response_without_messages env0 llm_incomplete payload_hello alice
           (mkCompletionDict None (Some (PyOther "dict" "{'tokens': 3}")))).
  - reflexivity.
  - right. reflexivity.
  - intros messages. reflexivity.
  - reflexivity.
Defined.

(** X5: an intent dict without the [intent] or the [entities] key (lines
    174-181).  The [KeyError] becomes the generic 500 of the legacy
    endpoint and [dispatch_intent] is never called. *)
Theorem legacy_process_request_missing_key env llm dispatch req user r :
  pri_user_id req = u_id user ->
  get_intent_and_entities llm (pri_text req) (pri_session_id req) = Returned r ->
  r !! "intent" = None \/ r !! "entities" = None ->
  outcome (legacy_process_request env llm dispatch req user) =
    Raised (HTTPException HTTP_500_INTERNAL_SERVER_ERROR "Internal server error")
  /\ dispatch_calls (trace (legacy_process_request env llm dispatch req user)) = [].
Proof.
  intros Heq Hllm Hmiss.
  rewrite (legacy_process_request_authorized _ _ _ _ _ Heq).
  unfold legacy_process_request_try, legacy_process_request_except, getitem.
  cbn [bind emit lift log_info log_at]. rewrite Hllm. cbn [bind].
  destruct (r !! "intent") as [intent|] eqn:Hi; cbn [bind ret raise].
  - destruct Hmiss as [Hmiss | Hmiss]; [discriminate |].
    rewrite Hmiss. split; reflexivity.
  - split; reflexivity.
Qed.

Lemma legacy_process_request_missing_key_witness :
  outcome (legacy_process_request env0 llm_incomplete dispatch_bare legacy_req alice) =
    Raised (HTTPException HTTP_500_INTERNAL_SERVER_ERROR "Internal server error")
  /\ dispatch_calls
       (trace (legacy_process_request env0 llm_incomplete dispatch_bare legacy_req alice)) = [].
Proof.
  apply (legacy_process_request_missing_key env0 llm_incomplete dispatch_bare legacy_req alice
           (<["intent" := PyStr "create_order"]> ∅)).
  - reflexivity.
  - reflexivity.
  - right. reflexivity.
Defined.

(** X6: what can leave the two endpoints.  Whatever the payload, the user,
    the LLM client and the dispatcher do, an endpoint returns or raises an
    [HTTPException] with status 400, 403 or 500: no exception of a
    collaborator passes through. *)
Theorem endpoints_raise_only_http_errors env llm dispatch payload req user :
  returns_or_http [400; 403; 500] (outcome (process_request env llm payload user))
  /\ returns_or_http [400; 403; 500]
       (outcome (legacy_process_request env llm dispatch req user)).
Proof.
  split.
  - unfold process_request.
    destruct (String.eqb (md_user_id (rp_metadata payload)) (u_id user));
      cbn [negb]; [| simpl; tauto].
    unfold log_info. rewrite outcome_log_then.
    destruct (process_request_try env llm _ payload) as [t [out|e]].
    + exact I.
    + rewrite (try_except_outcome_raised (t, Raised e) _ e eq_refl).
      rewrite process_request_except_outcome.
      destruct (is_ValueError e); simpl; tauto.
  - unfold legacy_process_request.
    destruct (String.eqb (pri_user_id req) (u_id user));
      cbn [negb]; [| simpl; tauto].
    unfold log_info. rewrite outcome_log_then.
    destruct (legacy_process_request_try llm dispatch _ (uuid4 env) req user)
      as [t [out|e]].
    + exact I.
    + rewrite (try_except_outcome_raised (t, Raised e) _ e eq_refl).
      rewrite legacy_process_request_except_outcome.
      destruct (is_ValueError e); simpl; tauto.
Qed.

(** The body of [process_request] returns exactly when the messages
    resolve, the completion call returns and its dict has [messages]. *)
Lemma process_request_try_returned_iff env llm log payload out :
  outcome (process_request_try env llm log payload) = Returned out <->
  exists messages r response_messages,
    outcome (effective_messages log payload) = Returned messages
    /\ llm_process_request llm messages (md_mode (rp_metadata payload)) (rp_model payload)
         (rp_temperature payload) (rp_max_tokens payload) = Returned r
    /\ cd_messages r = Some response_messages
    /\ out = mkResponsePayload response_messages
               (if truthy_str (md_timestamp (rp_metadata payload))
                then rp_metadata payload
                else set_timestamp (isoformat (utcnow env)) (rp_metadata payload))
               (default PyNone (cd_usage r)).
Proof.
  unfold process_request_try.
  destruct (effective_messages log payload) as [t0 [messages|e0]]; simpl.
  - destruct (llm_process_request llm messages _ _ _ _) as [r|e] eqn:Hllm; simpl.
    + destruct (truthy_str (md_timestamp (rp_metadata payload))); simpl;
        destruct (cd_messages r) as [l|] eqn:Hm; simpl; split;
        try discriminate;
        try (intros H; injection H as <-; exists messages, r, l;
             repeat split; assumption || reflexivity);
        intros (m' & r' & l' & Hm' & Hr' & Hl' & Hout);
        injection Hm' as <-; rewrite Hllm in Hr'; injection Hr' as <-;
        rewrite Hm in Hl'; try discriminate;
        injection Hl' as <-; rewrite Hout; reflexivity.
    + split; [discriminate |].
      intros (m' & r' & l' & Hm' & Hr' & _). injection Hm' as <-.
      rewrite Hllm in Hr'. discriminate.
  - split; [discriminate |].
    intros (m' & r' & l' & Hm' & _). discriminate.
Qed.

(** X7: when [process_request] returns, and what.  It returns exactly when
    the user ids agree, the request resolves to messages, the completion
    call returns and its dict has the [messages] key; the response then
    holds those messages, the request's metadata (with the timestamp
    filled when it was absent) and the dict's [usage], or [None] when the
    dict has none. *)
Theorem process_request_returns_iff env llm payload user out :
  outcome (process_request env llm payload user) = Returned out <->
  md_user_id (rp_metadata payload) = u_id user
  /\ exists messages r response_messages,
       outcome (effective_messages
                  (logger_bind (uuid4 env) (u_id user) (md_session_id (rp_metadata payload)))
                  payload) = Returned messages
       /\ llm_process_request llm messages (md_mode (rp_metadata payload)) (rp_model payload)
            (rp_temperature payload) (rp_max_tokens payload) = Returned r
       /\ cd_messages r = Some response_messages
       /\ out = mkResponsePayload response_messages
                  (if truthy_str (md_timestamp (rp_metadata payload))
                   then rp_metadata payload
                   else set_timestamp (isoformat (utcnow env)) (rp_metadata payload))
                  (default PyNone (cd_usage r)).
Proof.
  split.
  - intros Hout.
    assert (Heq : md_user_id (rp_metadata payload) = u_id user).
    { destruct (String.eqb_spec (md_user_id (rp_metadata payload)) (u_id user)) as [H|H];
        [exact H |].
      apply String.eqb_neq in H. unfold process_request in Hout.
      rewrite H in Hout. discriminate. }
    split; [exact Heq |].
    rewrite (process_request_authorized _ _ _ _ Heq) in Hout.
    unfold log_info in Hout. rewrite outcome_log_then in Hout.
    apply try_except_returned_inv in Hout.
    + apply process_request_try_returned_iff. exact Hout.
    + intros e. rewrite process_request_except_outcome.
      destruct (is_ValueError e); eauto.
  - intros [Heq Hex].
    rewrite (process_request_authorized _ _ _ _ Heq).
    unfold log_info. rewrite outcome_log_then.
    apply try_except_outcome_returned.
    apply process_request_try_returned_iff. exact Hex.
Qed.

Lemma process_request_returns_iff_witness :
  outcome (process_request env0 llm_metered payload_stamped alice) =
    Returned (mkResponsePayload [mkMessage "text" "assistant" "hi there"]
                (meta "alice" (Some "2020-01-01T00:00:00Z"))
                (PyOther "dict" "{'tokens': 3}")).
Proof.
  apply (proj2 (process_request_returns_iff env0 llm_metered payload_stamped alice _)).
  split; [reflexivity |].
  exists [mkMessage "text" "user" "hello"], answer_with_usage,
         [mkMessage "text" "assistant" "hi there"].
  repeat split.
Defined.

(** X8: the response's metadata keeps the request's session id and mode,
    and its user id is the authenticated user's: only the timestamp can
    differ from the request. *)
Theorem process_request_metadata_echo env llm payload user out :
  outcome (process_request env llm payload user) = Returned out ->
  md_session_id (resp_metadata out) = md_session_id (rp_metadata payload)
  /\ md_mode (resp_metadata out) = md_mode (rp_metadata payload)
  /\ md_user_id (resp_metadata out) = u_id user.
Proof.
  intros Hout.
  assert (Heq : md_user_id (rp_metadata payload) = u_id user).
  { destruct (String.eqb_spec (md_user_id (rp_metadata payload)) (u_id user)) as [H|H];
      [exact H |].
    apply String.eqb_neq in H. unfold process_request in Hout.
    rewrite H in Hout. discriminate. }
  rewrite (process_request_authorized _ _ _ _ Heq) in Hout.
  unfold log_info in Hout. rewrite outcome_log_then in Hout.
  apply try_except_returned_inv in Hout.
  2:{ intros e. rewrite process_request_except_outcome.
      destruct (is_ValueError e); eauto. }
  apply process_request_try_returned_iff in Hout.
  destruct Hout as (messages & r & l & _ & _ & _ & ->). simpl.
  destruct (truthy_str (md_timestamp (rp_metadata payload))); simpl;
    repeat split; try reflexivity; exact Heq.
Qed.

Lemma process_request_metadata_echo_witness :
  md_session_id (meta "alice" (Some "2024-03-09T07:05:00.001234+00:00")) =
    md_session_id (rp_metadata payload_hello)
  /\ md_mode (meta "alice" (Some "2024-03-09T07:05:00.001234+00:00")) =
       md_mode (rp_metadata payload_hello)
  /\ md_user_id (meta "alice" (Some "2024-03-09T07:05:00.001234+00:00")) = u_id alice.
Proof.
  exact (process_request_metadata_echo env0 llm_up payload_hello alice
           (mkResponsePayload [mkMessage "text" "assistant" "hi there"]
              (meta "alice" (Some "2024-03-09T07:05:00.001234+00:00")) PyNone)
           eq_refl).
Defined.

Lemma try_except_trace_raised {A} (m : M A) (h : PyExc -> M A) e :
  outcome m = Raised e -> trace (try_except m h) = trace m ++ trace (h e).
Proof.
  destruct m as [t [a|e']]; simpl; intros H; [discriminate |].
  injection H as ->. destruct (h e); reflexivity.
Qed.


(** X10: the cause of a failure is logged under the request's id.  When
    the body of the [try] raises [e], the last event of the endpoint's
    trace is the log line that carries [e], bound to the request id, the
    authenticated user and the session: a warning for a [ValueError], the
    exception level otherwise. *)
Theorem failures_are_logged_with_request_id :
  (forall env llm payload user e,
     md_user_id (rp_metadata payload) = u_id user ->
     outcome (process_request_try env llm
                (logger_bind (uuid4 env) (u_id user) (md_session_id (rp_metadata payload)))
                payload) = Raised e ->
     exists before,
       trace (process_request env llm payload user) =
         before ++
         [EvLog (logger_bind (uuid4 env) (u_id user) (md_session_id (rp_metadata payload)))
            (if is_ValueError e then WARNING else EXCEPTION)
            (if is_ValueError e then "Invalid request parameters: {}"
             else "Error processing request: {}")
            [LExc e]])
  /\ (forall env llm dispatch req user e,
        pri_user_id req = u_id user ->
        outcome (legacy_process_request_try llm dispatch
                   (logger_bind (uuid4 env) (u_id user) (pri_session_id req))
                   (uuid4 env) req user) = Raised e ->
        exists before,
          trace (legacy_process_request env llm dispatch req user) =
            before ++
            [EvLog (logger_bind (uuid4 env) (u_id user) (pri_session_id req))
               (if is_ValueError e then WARNING else EXCEPTION)
               (if is_ValueError e then "Value Error: {}" else "Unexpected error: {}")
               [LExc e]]).
Proof.
  split.
  - intros env llm payload user e Heq Hbody.
    rewrite (process_request_authorized _ _ _ _ Heq).
    unfold log_info. rewrite trace_log_then.
    rewrite (try_except_trace_raised _ _ e Hbody).
    eexists (_ :: _). rewrite <- app_comm_cons. f_equal. f_equal.
    unfold process_request_except. destruct (is_ValueError e); reflexivity.
  - intros env llm dispatch req user e Heq Hbody.
    rewrite (legacy_process_request_authorized _ _ _ _ _ Heq).
    unfold log_info. rewrite trace_log_then.
    rewrite (try_except_trace_raised _ _ e Hbody).
    eexists (_ :: _). rewrite <- app_comm_cons. f_equal. f_equal.
    unfold legacy_process_request_except. destruct (is_ValueError e); reflexivity.
Qed.

Lemma failures_are_logged_with_request_id_witness :
  exists before,
    trace (process_request env0 llm_down payload_hello alice) =
      before ++
      [EvLog (logger_bind (uuid4 env0) (u_id alice) (md_session_id (rp_metadata payload_hello)))
         EXCEPTION "Error processing request: {}"
         [LExc (OtherException "ConnectionError" "10.0.0.7:8443 refused")]].
Proof.
  exact (proj1 failures_are_logged_with_request_id env0 llm_down payload_hello alice
           (OtherException "ConnectionError" "10.0.0.7:8443 refused") eq_refl eq_refl).
Defined.

(** X11: how the legacy flow composes its collaborators (lines 167-183).
    Once the intent dict has both keys, the trace is: the entry log line,
    the one intent extraction on the request's text and session id, the
    result log line, the one call of [dispatch_intent] with the dict's
    intent and entities and the authenticated user's id, whatever the
    dispatcher does, and one closing log line. *)
Theorem legacy_process_request_trace env llm dispatch req user r intent entities :
  pri_user_id req = u_id user ->
  get_intent_and_entities llm (pri_text req) (pri_session_id req) = Returned r ->
  r !! "intent" = Some intent ->
  r !! "entities" = Some entities ->
  exists closing_lvl closing_template closing_args,
    trace (legacy_process_request env llm dispatch req user) =
      [EvLog (logger_bind (uuid4 env) (u_id user) (pri_session_id req)) INFO
         "Received legacy process_request: '{}'" [LStr (pri_text req)];
       EvLLMIntent (pri_text req) (pri_session_id req);
       EvLog (logger_bind (uuid4 env) (u_id user) (pri_session_id req)) INFO
         "LLM Result: Intent='{}', Entities={}" [LVal intent; LVal entities];
       EvDispatch intent entities (u_id user)]
      ++ trace (dispatch intent entities (u_id user))
      ++ [EvLog (logger_bind (uuid4 env) (u_id user) (pri_session_id req))
            closing_lvl closing_template closing_args].
Proof.
  intros Heq Hllm Hi He.
  rewrite (legacy_process_request_authorized _ _ _ _ _ Heq).
  unfold legacy_process_request_try, legacy_process_request_except, getitem.
  cbn [bind emit lift log_info log_at]. rewrite Hllm. cbn [bind]. rewrite Hi.
  cbn [bind ret]. rewrite He. cbn [bind ret emit].
  destruct (dispatch intent entities (u_id user)) as [t [d|e]]; simpl.
  - do 3 eexists. reflexivity.
  - destruct (is_ValueError e); simpl; do 3 eexists; reflexivity.
Qed.

Lemma legacy_process_request_trace_witness :
  exists closing_lvl closing_template closing_args,
    trace (legacy_process_request env0 llm_up dispatch_bare legacy_req alice) =
      [EvLog (logger_bind (uuid4 env0) (u_id alice) (pri_session_id legacy_req)) INFO
         "Received legacy process_request: '{}'" [LStr (pri_text legacy_req)];
       EvLLMIntent (pri_text legacy_req) (pri_session_id legacy_req);
       EvLog (logger_bind (uuid4 env0) (u_id alice) (pri_session_id legacy_req)) INFO
         "LLM Result: Intent='{}', Entities={}"
         [LVal (PyStr "create_order"); LVal (PyOther "dict" "{'qty': 2}")];
       EvDispatch (PyStr "create_order") (PyOther "dict" "{'qty': 2}") (u_id alice)]
      ++ trace (dispatch_bare (PyStr "create_order") (PyOther "dict" "{'qty': 2}") (u_id alice))
      ++ [EvLog (logger_bind (uuid4 env0) (u_id alice) (pri_session_id legacy_req))
            closing_lvl closing_template closing_args].
Proof.
  exact (legacy_process_request_trace env0 llm_up dispatch_bare legacy_req alice
           (<["intent" := PyStr "create_order"]>
              (<["entities" := PyOther "dict" "{'qty': 2}"]> ∅))
           (PyStr "create_order") (PyOther "dict" "{'qty': 2}")
           eq_refl eq_refl eq_refl eq_refl).
Defined.

(** X12: every log line [process_request] writes, on every path, is bound
    to the request id drawn for the call, the authenticated user's id and
    the payload's session id. *)
Theorem process_request_log_contexts env llm payload user :
  Forall (fun ctx => ctx = logger_bind (uuid4 env) (u_id user)
                             (md_session_id (rp_metadata payload)))
         (log_contexts (trace (process_request env llm payload user))).
Proof.
  unfold process_request, process_request_try, process_request_except, effective_messages.
  destruct (String.eqb (md_user_id (rp_metadata payload)) (u_id user)); simpl;
    [| repeat constructor].
  destruct (truthy_list (rp_messages payload)); simpl.
  - destruct (llm_process_request llm _ _ _ _ _) as [r|e]; simpl;
      [| destruct (is_ValueError e); repeat constructor].
    destruct (truthy_str (md_timestamp (rp_metadata payload))); simpl;
      destruct (cd_messages r); repeat constructor.
  - destruct (truthy_str (rp_input payload)); simpl; [| repeat constructor].
    destruct (llm_process_request llm _ _ _ _ _) as [r|e]; simpl;
      [| destruct (is_ValueError e); repeat constructor].
    destruct (truthy_str (md_timestamp (rp_metadata payload))); simpl;
      destruct (cd_messages r); repeat constructor.
Qed.

(** ** Further properties of the health check *)

(** X13: when the second probe is reached (lines 40-58).  The check pings
    the datastore and then the cache, each once, unless logging the
    datastore's failure raises: then the [except] block is left, the
    endpoint with it, and the cache is never probed. *)
Theorem probes_run env db_ping redis_ping :
  pings (trace (get_application_status env db_ping redis_ping)) =
    match logging_failure env mongodb_failed db_ping with
    | None => [EvPingDatabase; EvPingRedis]
    | Some _ => [EvPingDatabase]
    end.
Proof.
  destruct db_ping as [[]|e1], redis_ping as [[]|e2]; status_run;
    repeat match goal with
           | |- context [format_exc_info_false env ?m] =>
               destruct (format_exc_info_false env m); status_run
           end; reflexivity.
Qed.

(** X14: the health check in full.  An exception raised while the failure
    of a probe is logged leaves the endpoint as it is.  Otherwise the
    recorded components are the datastore, the cache and the worker pool,
    in that order, the first two reading "ok" or "error" as their probe
    returned or raised, and the endpoint returns the fixed "ok" response
    when both probes returned and raises the 503 with the summary when one
    did not. *)
Theorem get_application_status_outcome env db_ping redis_ping :
  let st := mkHealthState
              [("database_mongodb", probe_status db_ping);
               ("cache_broker_redis", probe_status redis_ping);
               ("celery_workers", "check_not_implemented")]
              (returned db_ping && returned redis_ping) in
  (forall log,
     outcome (check_components env log db_ping redis_ping) =
       match logging_failure env mongodb_failed db_ping with
       | Some x => Raised x
       | None =>
           match logging_failure env redis_failed redis_ping with
           | Some x => Raised x
           | None => Returned st
           end
       end)
  /\ outcome (get_application_status env db_ping redis_ping) =
       match logging_failure env mongodb_failed db_ping with
       | Some x => Raised x
       | None =>
           match logging_failure env redis_failed redis_ping with
           | Some x => Raised x
           | None =>
               if returned db_ping && returned redis_ping
               then Returned (mkStatusResponse "ok" "All critical components operational.")
               else Raised (HTTPException HTTP_503_SERVICE_UNAVAILABLE (status_message st))
           end
       end.
Proof.
  intros st. split.
  - intros log. apply check_components_outcome.
  - apply get_application_status_by_cases.
Qed.

(** X15: when the failures of the probes are logged without incident, the
    answer of the health check depends on which probes failed and on
    nothing else: the text of a probe's exception reaches neither the 503
    detail nor the response. *)
Theorem get_application_status_hides_probe_errors env db1 redis1 db2 redis2 :
  logging_failure env mongodb_failed db1 = None ->
  logging_failure env redis_failed redis1 = None ->
  logging_failure env mongodb_failed db2 = None ->
  logging_failure env redis_failed redis2 = None ->
  returned db1 = returned db2 ->
  returned redis1 = returned redis2 ->
  outcome (get_application_status env db1 redis1) =
    outcome (get_application_status env db2 redis2).
Proof.
  intros H1 H2 H3 H4 Hdb Hredis.
  rewrite !get_application_status_by_cases, H1, H2, H3, H4.
  unfold probe_status. rewrite Hdb, Hredis. reflexivity.
Qed.

Lemma get_application_status_hides_probe_errors_witness :
  outcome (get_application_status status_env0 ping_down ping_ok) =
    outcome (get_application_status status_env0
               (Raised (OtherException "ServerSelectionTimeoutError" "mongo-0.internal:27017"))
               ping_ok).
Proof.
  apply (get_application_status_hides_probe_errors status_env0 ping_down ping_ok
           (Raised (OtherException "ServerSelectionTimeoutError" "mongo-0.internal:27017"))
           ping_ok); vm_compute; reflexivity.
Defined.

(** X16: a health check whose component checks run to their end, healthy
    or not, ends by logging the summary of line 80, and that logged summary
    is the very string the 503 carries; the healthy response itself does
    not hold it. *)
Theorem get_application_status_logs_summary env db_ping redis_ping :
  logging_failure env mongodb_failed db_ping = None ->
  logging_failure env redis_failed redis_ping = None ->
  let st := mkHealthState
              [("database_mongodb", probe_status db_ping);
               ("cache_broker_redis", probe_status redis_ping);
               ("celery_workers", "check_not_implemented")]
              (returned db_ping && returned redis_ping) in
  exists before ctx,
    trace (get_application_status env db_ping redis_ping) =
      before ++ [EvLog ctx INFO "Status check completed: {}" [LStr (status_message st)]]
    /\ (forall detail,
          outcome (get_application_status env db_ping redis_ping) =
            Raised (HTTPException HTTP_503_SERVICE_UNAVAILABLE detail) ->
          detail = status_message st)
    /\ (forall response,
          outcome (get_application_status env db_ping redis_ping) = Returned response ->
          sr_message response = "All critical components operational.").
Proof.
  intros H1 H2 st.
  assert (Hout := get_application_status_by_cases env db_ping redis_ping).
  rewrite H1, H2 in Hout. fold st in Hout. rewrite Hout. clear Hout.
  assert (Htrace : exists before ctx,
            trace (get_application_status env db_ping redis_ping) =
              before ++ [EvLog ctx INFO "Status check completed: {}"
                           [LStr (status_message st)]]).
  { subst st. revert H1 H2.
    destruct db_ping as [[]|e1], redis_ping as [[]|e2]; status_run;
      repeat match goal with
             | |- context [format_exc_info_false env ?m] =>
                 destruct (format_exc_info_false env m); status_run
             end; intros H1 H2; try discriminate H1; try discriminate H2;
      (eexists (_ :: _ :: _ :: _ :: _ :: []); eexists; reflexivity). }
  destruct Htrace as (before & ctx & Htrace).
  exists before, ctx. split; [exact Htrace |]. split.
  - intros detail H.
    destruct (returned db_ping && returned redis_ping); [discriminate H |].
    injection H as <-. reflexivity.
  - intros response H.
    destruct (returned db_ping && returned redis_ping); [| discriminate H].
    injection H as <-. reflexivity.
Qed.

Lemma get_application_status_logs_summary_witness :
  exists before ctx,
    trace (get_application_status status_env0 ping_down ping_ok) =
      before ++
      [EvLog ctx INFO "Status check completed: {}"
         [LStr "Overall: ERROR | Components: {'database_mongodb': 'error', 'cache_broker_redis': 'ok', 'celery_workers': 'check_not_implemented'}"]].
Proof.
  destruct (get_application_status_logs_summary status_env0 ping_down ping_ok)
    as (before & ctx & Htrace & _); [vm_compute; reflexivity | reflexivity |].
  exists before, ctx. exact Htrace.
Defined.

(** X17: the trace id of the health check (line 33).  Every log line is
    bound to the endpoint name and to one trace id: the id of the context
    variable when it is set and not empty, otherwise "status_" followed by
    the first eight characters of a fresh uuid's hex form. *)
Theorem get_application_status_log_contexts env db_ping redis_ping :
  Forall (fun ctx =>
            dict_get "api_endpoint" ctx = Some "/status GET"
            /\ dict_get "trace_id" ctx =
                 Some (match trace_id_var env with
                       | Some (String c t) => String c t
                       | _ => "status_" +:+ String.substring 0 8 (uuid4_hex env)
                       end))
         (log_contexts (trace (get_application_status env db_ping redis_ping))).
Proof.
  assert (Hid : str_or (trace_id_var env)
                  ("status_" +:+ String.substring 0 8 (uuid4_hex env)) =
                match trace_id_var env with
                | Some (String c t) => String c t
                | _ => "status_" +:+ String.substring 0 8 (uuid4_hex env)
                end).
  { unfold str_or. destruct (trace_id_var env) as [[|c t]|]; reflexivity. }
  unfold get_application_status. rewrite Hid.
  destruct db_ping as [[]|e1], redis_ping as [[]|e2]; status_run;
    repeat match goal with
           | |- context [format_exc_info_false env ?m] =>
               destruct (format_exc_info_false env m); status_run
           end;
    repeat (constructor; [split; reflexivity |]); constructor.
Qed.

(** X20: a failing datastore probe whose exception text holds no brace,
    with the cache probe succeeding (lines 40-58, 78-89): the overall
    status is "error", the cache/broker entry reads "ok" and the endpoint
    raises the 503 that carries the components. *)
Theorem health_check_verdict_plain_text env e :
  brace_free (exc_str e) = true ->
  let st := mkHealthState
              [("database_mongodb", "error"); ("cache_broker_redis", "ok");
               ("celery_workers", "check_not_implemented")] false in
  (forall log, outcome (check_components env log (Raised e) (Returned tt)) = Returned st)
  /\ final_status st = "error"
  /\ dict_get "cache_broker_redis" (component_statuses st) = Some "ok"
  /\ outcome (get_application_status env (Raised e) (Returned tt)) =
       Raised (HTTPException HTTP_503_SERVICE_UNAVAILABLE
                 "Overall: ERROR | Components: {'database_mongodb': 'error', 'cache_broker_redis': 'ok', 'celery_workers': 'check_not_implemented'}").
Proof.
  intros He st.
  assert (Hlog : logging_failure env mongodb_failed (Raised e) = None).
  { apply (logging_failure_brace_free env "MongoDB connection check failed: ");
      [reflexivity |].
    intros e' H. injection H as <-. exact He. }
  split; [| split; [reflexivity | split; [reflexivity |]]].
  - intros log. rewrite check_components_outcome, Hlog. reflexivity.
  - rewrite get_application_status_by_cases, Hlog. reflexivity.
Qed.

Lemma health_check_verdict_plain_text_witness :
  outcome (get_application_status status_env0 ping_down ping_ok) =
    Raised (HTTPException HTTP_503_SERVICE_UNAVAILABLE
              "Overall: ERROR | Components: {'database_mongodb': 'error', 'cache_broker_redis': 'ok', 'celery_workers': 'check_not_implemented'}").
Proof.
  apply (health_check_verdict_plain_text status_env0
           (OtherException "ConnectionError" "connection refused")).
  reflexivity.
Defined.

(** ** The import of [api/v1.py] *)

Lemma existsb_eqb_not_in (n : string) (l : list string) :
  ~ In n l -> existsb (String.eqb n) l = false.
Proof.
  intros Hn. induction l as [|x l IH]; [reflexivity |].
  simpl. destruct (String.eqb_spec n x) as [->|_].
  - exfalso. apply Hn. left. reflexivity.
  - apply IH. intros H. apply Hn. right. exact H.
Qed.

Lemma bound_cons n x names mounts :
  V1.bound n (V1.mkModuleState (x :: names) mounts) =
    String.eqb n x || V1.bound n (V1.mkModuleState names mounts).
Proof. reflexivity. Qed.

(** The status module cannot be imported: its route is defined at lines
    17-28 with a name that only line 92 binds. *)
Lemma status_module_import_fails builtins :
  ~ In "AsyncIOMotorDatabase" builtins ->
  exists st,
    V1.exec V1.status_module (V1.mkModuleState builtins []) =
      (st, Raised (V1.NameError "AsyncIOMotorDatabase")).
Proof.
  intros Hn.
  assert (Hb : forall mounts,
            V1.bound "AsyncIOMotorDatabase" (V1.mkModuleState builtins mounts) = false)
    by (intros mounts; apply existsb_eqb_not_in; exact Hn).
  eexists. unfold V1.status_module.
  unfold V1.assign_api_router, V1.def_route, V1.import_from, V1.bind_names.
  repeat (progress (cbn -[V1.bound]; rewrite ?bound_cons, ?Hb)).
  reflexivity.
Qed.

(** X18: the module cannot be imported.  As it stands, line 19 imports the
    status module, whose own import ends in a [NameError] for
    [AsyncIOMotorDatabase]: the import of [api/v1.py] ends there, before
    its router exists, with nothing mounted.  And over any status module
    that does import, line 33 mounts [agreements_router] where line 9
    imported [agreement_router]: the import ends in that [NameError] after
    six routers, short of the status router and the root route.  (A name
    that is a builtin would be found; none of the two is one.) *)
Theorem v1_module_import_fails builtins :
  ~ In "AsyncIOMotorDatabase" builtins ->
  ~ In "agreements_router" builtins ->
  (exists st,
     V1.exec (V1.v1_module builtins) (V1.mkModuleState builtins []) =
       (st, Raised (V1.NameError "AsyncIOMotorDatabase"))
     /\ V1.ms_mounts st = []
     /\ V1.bound "api_v1_router" st = V1.bound "api_v1_router" (V1.mkModuleState builtins []))
  /\ (forall status_body st0,
        V1.exec status_body (V1.mkModuleState builtins []) = (st0, Returned tt) ->
        exists st,
          V1.exec (V1.v1_module_over builtins status_body) (V1.mkModuleState builtins []) =
            (st, Raised (V1.NameError "agreements_router"))
          /\ map V1.mt_prefix (V1.ms_mounts st) =
               ["/auth"; "/users"; "/products"; "/orders"; "/stock"; "/deliveries"]).
Proof.
  intros Hmotor Hagree. split.
  - destruct (status_module_import_fails builtins Hmotor) as [st0 Hst0].
    eexists. split; [| split].
    + unfold V1.v1_module, V1.v1_module_over, V1.import_module.
      unfold V1.import_from, V1.bind_names.
      cbn -[V1.bound V1.status_module]. rewrite Hst0. reflexivity.
    + reflexivity.
    + cbn -[V1.bound]. rewrite !bound_cons. reflexivity.
  - intros status_body st0 Hbody.
    assert (Hb : forall mounts,
              V1.bound "agreements_router" (V1.mkModuleState builtins mounts) = false)
      by (intros mounts; apply existsb_eqb_not_in; exact Hagree).
    eexists. split.
    + unfold V1.v1_module_over, V1.import_module.
      unfold V1.assign_api_router, V1.def_route, V1.include_router, V1.import_from,
        V1.bind_names.
      cbn -[V1.bound V1.exec]. 
      repeat (progress (cbn -[V1.bound]; rewrite ?Hbody, ?bound_cons, ?Hb)).
      reflexivity.
    + reflexivity.
Qed.

Lemma v1_module_import_fails_witness :
  exists st,
    V1.exec (V1.v1_module ["len"; "print"]) (V1.mkModuleState ["len"; "print"] []) =
      (st, Raised (V1.NameError "AsyncIOMotorDatabase"))
    /\ V1.ms_mounts st = [].
Proof.
  destruct (v1_module_import_fails ["len"; "print"]) as [(st & Hrun & Hmounts & _) _].
  - intros [H | [H | []]]; discriminate H.
  - intros [H | [H | []]]; discriminate H.
  - exists st. split; [exact Hrun | exact Hmounts].
Defined.

(** ** When the legacy endpoint returns *)

(** X19: [legacy_process_request] returns exactly when the user ids agree,
    the intent extraction returns a dict with the [intent] and [entities]
    keys and the dispatcher returns; its output is then the one of lines
    186-195.  In every other case it raises. *)
Theorem legacy_process_request_returns_iff env llm dispatch req user out :
  outcome (legacy_process_request env llm dispatch req user) = Returned out <->
  pri_user_id req = u_id user
  /\ exists r intent entities d,
       get_intent_and_entities llm (pri_text req) (pri_session_id req) = Returned r
       /\ r !! "intent" = Some intent
       /\ r !! "entities" = Some entities
       /\ outcome (dispatch intent entities (u_id user)) = Returned d
       /\ out = mkProcessRequestOutput
                  (default (PyStr "success") (d !! "status"))
                  (default (PyStr (default_message intent)) (d !! "message"))
                  intent d (uuid4 env).
Proof.
  split.
  - intros Hout. split.
    + destruct (String.eqb_spec (pri_user_id req) (u_id user)) as [H|H]; [exact H |].
      apply String.eqb_neq in H. unfold legacy_process_request in Hout.
      rewrite H in Hout. discriminate.
    + apply (legacy_process_request_returned_inv env). exact Hout.
  - intros (Heq & r & intent & entities & d & Hllm & Hi & He & Hd & ->).
    apply (legacy_process_request_returns _ _ _ _ _ r intent entities d); assumption.
Qed.

Lemma legacy_process_request_returns_iff_witness :
  outcome (legacy_process_request env0 llm_up
             (fun _ _ _ => ret (<["status" := PyStr "queued"]>
                                  (<["message" := PyStr "order placed"]> ∅)))
             legacy_req alice) =
    Returned (mkProcessRequestOutput (PyStr "queued") (PyStr "order placed")
                (PyStr "create_order")
                (<["status" := PyStr "queued"]> (<["message" := PyStr "order placed"]> ∅))
                (uuid4 env0)).
Proof.
  apply (proj2 (legacy_process_request_returns_iff env0 llm_up _ legacy_req alice _)).
  split; [reflexivity |].
  exists (<["intent" := PyStr "create_order"]>
            (<["entities" := PyOther "dict" "{'qty': 2}"]> ∅)),
         (PyStr "create_order"), (PyOther "dict" "{'qty': 2}"),
         (<["status" := PyStr "queued"]> (<["message" := PyStr "order placed"]> ∅)).
  repeat split.
Defined.
